(** * Azure DevOps MCP server: token acquisition and HTTP session dispatch

    A shallow embedding of [src/auth.ts] (the credential back ends and
    their factory) and of [src/index.ts] (the authenticator wrapper and
    the [/mcp] request handlers), followed by the properties established
    about them.

    Conventions.
    - A TypeScript value of type [string | undefined] is an
      [option string]; JavaScript truthiness is [truthy].
    - An [async] function is a computation in the monad [M]: it threads
      the process state [World] and either returns or throws.
    - What the identity libraries and the protocol SDK answer is not
      decided by this code base; it is supplied to the functions below
      as an explicit record of answers ([IdentityProvider], [Sdk]).
    - A handler runs from its first statement to its last without
      another handler running in between; interleavings at [await] are
      not part of this model.
    - The object [transports] is a finite map of its own properties;
      reading it with a key it does not own finds what every object
      inherits from [Object.prototype].
    - Calls to [console.log] are left out. *)

From Stdlib Require Import ZArith Bool List Ascii String.
From stdpp Require Import base option list gmap strings.
Import ListNotations.

Local Open Scope string_scope.
Set Warnings "-register-all".

(** ** JavaScript values *)

Module Js.

(** [if (v)] for [v : string | undefined]: undefined and the empty
    string are falsy. *)
Definition truthy (v : option string) : bool :=
  match v with
  | Some s => negb (String.eqb s "")
  | None => false
  end.

(** [s.split(sep)] for a one-character separator. *)
Fixpoint split (sep : ascii) (s : string) : list string :=
  match s with
  | EmptyString => [EmptyString]
  | String c rest =>
      if Ascii.eqb c sep then EmptyString :: split sep rest
      else match split sep rest with
           | [] => [String c EmptyString]
           | piece :: pieces => String c piece :: pieces
           end
  end.

(** [h?.split(" ")[1]] *)
Definition secondWord (h : option string) : option string :=
  match h with
  | Some s => nth_error (split " "%char s) 1
  | None => None
  end.

(** Parsed JSON, as [express.json()] hands it to a handler. *)
Inductive Json :=
| JNull
| JBool (b : bool)
| JNum (z : Z)
| JStr (s : string)
| JArr (items : list Json)
| JObj (fields : list (string * Json)).

(** [o[key]] on the fields of a parsed object. *)
Fixpoint prop (key : string) (fields : list (string * Json)) : option Json :=
  match fields with
  | [] => None
  | (k, v) :: rest => if String.eqb k key then Some v else prop key rest
  end.

End Js.

(** ** Process state and the monad of asynchronous computations *)

(** What a rejected promise or a [throw] carries. *)
Inductive Exn :=
| Error (message : string)        (* [new Error(message)] raised by this code base *)
| LibraryError (name : string)    (* rejection coming out of a library call *)
| TypeError (message : string).   (* raised by the JavaScript runtime *)

(** How a library call completes: a promise resolves or rejects, a
    constructor returns or throws. *)
Inductive Settled (A : Type) :=
| Resolved (a : A)
| Rejected (name : string).
Arguments Resolved {A} a.
Arguments Rejected {A} name.

Record AccountInfo := { homeAccountId : string }.

(** [AuthenticationResult] of msal-node, the two fields read here. *)
Record AuthenticationResult := {
  accessToken : string;
  account : option AccountInfo
}.

(** [AccessToken] of @azure/identity. *)
Record AccessToken := { token : string; expiresOnTimestamp : Z }.

(** The ambient identity sources chained in [createAuthenticator]. *)
Inductive Source :=
| DefaultAzureCredential
| AzureCliCredential (tenantId : string).

Inductive TokenCredential :=
| Single (source : Source)
| ChainedTokenCredential (sources : list Source).

(** A transport object is named by the index at which it was allocated. *)
Definition Handle := nat.

(** [StreamableHTTPServerTransport]: the one field this code reads. *)
Record Transport := { sessionId : option string }.

(** Calls into the libraries, updates of the registry and assignments
    to [process.env], in the order they happen. *)
Inductive Effect :=
| AcquireTokenSilent (a : AccountInfo)
| AcquireTokenInteractive
| AcquireTokenOnBehalfOf (oboAssertion : string)
| GetToken (source : Source)
| NewTransport (h : Handle)
| Connect (h : Handle)
| HandleRequest (h : Handle)
| RegistrySet (sid : string) (h : Handle)
| RegistryDelete (sid : string)
| SetEnv (name value : string).

Record World := mkWorld {
  accountId : option AccountInfo;      (* [OAuthAuthenticator.accountId] *)
  externalToken : option string;       (* [let externalToken] of [main] *)
  transports : gmap string Handle;     (* [const transports] of [main] *)
  objects : list Transport;            (* the transports allocated so far *)
  trace : list Effect
}.

Inductive Completion (A : Type) :=
| Return (a : A)
| Throw (e : Exn).
Arguments Return {A} a.
Arguments Throw {A} e.

Definition M (A : Type) : Type := World -> Completion A * World.

Definition ret {A} (a : A) : M A := fun w => (Return a, w).

Definition throw {A} (e : Exn) : M A := fun w => (Throw e, w).

Definition bind {A B} (c : M A) (k : A -> M B) : M B :=
  fun w =>
    match c w with
    | (Return a, w') => k a w'
    | (Throw e, w') => (Throw e, w')
    end.

Notation "'let!' x ':=' c 'in' k" := (bind c (fun x => k))
  (at level 10, x name, c at level 100, k at level 200).
Notation "'do!' c 'in' k" := (bind c (fun _ => k))
  (at level 10, c at level 100, k at level 200).

(** [try { body } catch { handler }] *)
Definition tryCatch {A} (body : M A) (handler : Exn -> M A) : M A :=
  fun w =>
    match body w with
    | (Return a, w') => (Return a, w')
    | (Throw e, w') => handler e w'
    end.

(** [try { body } finally { cleanup }] *)
Definition tryFinally {A} (body : M A) (cleanup : M unit) : M A :=
  fun w =>
    match body w with
    | (r, w') =>
        match cleanup w' with
        | (Return _, w'') => (r, w'')
        | (Throw e, w'') => (Throw e, w'')
        end
    end.

Definition gets {A} (f : World -> A) : M A := fun w => (Return (f w), w).

Definition modify (f : World -> World) : M unit := fun w => (Return tt, f w).

Definition emit (e : Effect) : M unit :=
  modify (fun w => mkWorld (accountId w) (externalToken w) (transports w)
                           (objects w) (trace w ++ [e])).

Definition setAccountId (a : option AccountInfo) : M unit :=
  modify (fun w => mkWorld a (externalToken w) (transports w) (objects w) (trace w)).

Definition setExternalToken (t : option string) : M unit :=
  modify (fun w => mkWorld (accountId w) t (transports w) (objects w) (trace w)).

Definition setTransports (f : gmap string Handle -> gmap string Handle) : M unit :=
  modify (fun w => mkWorld (accountId w) (externalToken w) (f (transports w))
                           (objects w) (trace w)).

Definition setObjects (f : list Transport -> list Transport) : M unit :=
  modify (fun w => mkWorld (accountId w) (externalToken w) (transports w)
                           (f (objects w)) (trace w)).

(** [await p] for a library promise [p]. *)
Definition await {A} (p : Settled A) : M A :=
  match p with
  | Resolved a => ret a
  | Rejected name => throw (LibraryError name)
  end.

(** The process right after start-up. *)
Definition initial : World := mkWorld None None ∅ [] [].

(** ** [auth.ts] *)

Module Auth.

(** The answers of the identity libraries, per call. *)
Record PublicClientApplication := { authority : string }.

Record ConfidentialClientApplication := {
  ccaClientId : string;
  ccaClientSecret : string;
  ccaAuthority : string
}.

Record IdentityProvider := {
  acquireTokenSilent :
    PublicClientApplication -> AccountInfo -> Settled AuthenticationResult;
  acquireTokenInteractive :
    PublicClientApplication -> Settled AuthenticationResult;
  acquireTokenOnBehalfOf :
    ConfidentialClientApplication -> string -> Settled (option AuthenticationResult);
  sourceToken : Source -> Settled (option AccessToken);
  (* [new DefaultAzureCredential()]: whether the constructor returns or
     throws; the argument is the value the code has just assigned to
     AZURE_TOKEN_CREDENTIALS, if it assigned one *)
  newDefaultAzureCredential : option string -> Settled unit;
  (* [new AzureCliCredential({ tenantId })]: whether the constructor
     accepts the tenant id *)
  newAzureCliCredential : string -> Settled unit
}.

Definition login (tenantId : string) : string :=
  "https://login.microsoftonline.com/" ++ tenantId.

Record OAuthAuthenticator := { publicClientApp : PublicClientApplication }.

Definition defaultAuthority : string := "https://login.microsoftonline.com/common".

(** [new OAuthAuthenticator(tenantId)]: the account starts out [null]. *)
Definition newOAuthAuthenticator (tenantId : option string) : M OAuthAuthenticator :=
  do! setAccountId None in
  ret {| publicClientApp :=
           {| authority := match tenantId with
                           | Some t => if Js.truthy tenantId then login t else defaultAuthority
                           | None => defaultAuthority
                           end |} |}.

Record OboAuthenticator := { cca : ConfidentialClientApplication }.

(** [new OboAuthenticator(clientId, clientSecret, tenantId)] *)
Definition newOboAuthenticator (clientId clientSecret : string)
    (tenantId : option string) : OboAuthenticator :=
  {| cca := {| ccaClientId := clientId;
               ccaClientSecret := clientSecret;
               ccaAuthority := match tenantId with
                               | Some t => if Js.truthy tenantId then login t
                                           else login "common"
                               | None => login "common"
                               end |} |}.

Record Options := { clientId : option string; clientSecret : option string }.

(** The closures [createAuthenticator] returns, one constructor per
    [return] of the [switch]. *)
Inductive Authenticator :=
| FromCredential (credential : TokenCredential)
| FromExternal
| FromObo (obo : OboAuthenticator)
| FromOAuth (authenticator : OAuthAuthenticator).

Section Calls.

Variable idp : IdentityProvider.

(** [OAuthAuthenticator.getToken] *)
Definition getToken (self : OAuthAuthenticator) : M string :=
  let! cached := gets accountId in
  let! silent :=
    match cached with
    | Some a =>
        tryCatch
          (do! emit (AcquireTokenSilent a) in
           let! r := await (acquireTokenSilent idp (publicClientApp self) a) in
           ret (Some r))
          (fun _ => ret None)
    | None => ret None
    end in
  let! authResult :=
    match silent with
    | Some r => ret r
    | None =>
        do! emit AcquireTokenInteractive in
        let! r := await (acquireTokenInteractive idp (publicClientApp self)) in
        do! setAccountId (account r) in
        ret r
    end in
  if Js.truthy (Some (accessToken authResult))
  then ret (accessToken authResult)
  else throw (Error "Failed to obtain Azure DevOps OAuth token.").

(** [OboAuthenticator.getTokenOnBehalfOf] *)
Definition getTokenOnBehalfOf (self : OboAuthenticator) (userAssertion : string) : M string :=
  do! emit (AcquireTokenOnBehalfOf userAssertion) in
  let! result := await (acquireTokenOnBehalfOf idp (cca self) userAssertion) in
  match result with
  | Some r =>
      if Js.truthy (Some (accessToken r)) then ret (accessToken r)
      else throw (Error "Failed to obtain OBO token.")
  | None => throw (Error "Failed to obtain OBO token.")
  end.

(** The errors a chain steps over, by [err.name]. *)
Definition unavailable (name : string) : bool :=
  String.eqb name "CredentialUnavailableError"
  || String.eqb name "AuthenticationRequiredError".

(** [ChainedTokenCredential.getToken], as @azure/identity runs it: the
    sources are asked in order until one resolves with a token; a
    source that resolves without one, or that rejects with an error the
    chain steps over, is passed; any other rejection ends the chain and
    is rethrown. With every source passed the chain rejects, with an
    aggregate of the errors it stepped over when there are any.
    [errors] tells whether an error has been stepped over so far. A
    chain of no sources at all fails on the name of the source that
    succeeded, which it reads for its log before it looks at the
    token. *)
Fixpoint chainedFrom (errors : bool) (sources : list Source) : M (option AccessToken) :=
  match sources with
  | [] =>
      if errors then throw (LibraryError "AggregateAuthenticationError")
      else throw (LibraryError "CredentialUnavailableError")
  | s :: rest =>
      do! emit (GetToken s) in
      match sourceToken idp s with
      | Resolved (Some t) => ret (Some t)
      | Resolved None => chainedFrom errors rest
      | Rejected name =>
          if unavailable name then chainedFrom true rest
          else throw (LibraryError name)
      end
  end.

Definition chained (sources : list Source) : M (option AccessToken) :=
  match sources with
  | [] => throw (TypeError "Cannot read properties of undefined (reading 'constructor')")
  | _ => chainedFrom false sources
  end.

(** [credential.getToken(scopes)] *)
Definition credentialGetToken (credential : TokenCredential) : M (option AccessToken) :=
  match credential with
  | Single s => do! emit (GetToken s) in await (sourceToken idp s)
  | ChainedTokenCredential sources => chained sources
  end.

(** Calling the closure returned by [createAuthenticator]. *)
Definition call (a : Authenticator) (externalToken : option string) : M string :=
  match a with
  | FromCredential credential =>
      let! result := credentialGetToken credential in
      match result with
      | Some r => ret (token r)
      | None => throw (Error "Failed to obtain Azure DevOps token.")
      end
  | FromExternal =>
      match externalToken with
      | Some t =>
          if Js.truthy externalToken then ret t
          else throw (Error "External token must be provided for 'external' auth type.")
      | None => throw (Error "External token must be provided for 'external' auth type.")
      end
  | FromObo obo =>
      match externalToken with
      | Some t =>
          if Js.truthy externalToken then getTokenOnBehalfOf obo t
          else throw (Error "OBO flow requires a user token to exchange.")
      | None => throw (Error "OBO flow requires a user token to exchange.")
      end
  | FromOAuth authenticator => getToken authenticator
  end.

End Calls.

(** [new X(...)] for a constructor of @azure/identity. *)
Definition construct (answer : Settled unit) : M unit :=
  match answer with
  | Resolved _ => ret tt
  | Rejected name => throw (LibraryError name)
  end.

(** [createAuthenticator(type, tenantId, options)] *)
Definition createAuthenticator (idp : IdentityProvider) (type : string)
    (tenantId : option string) (options : option Options) : M Authenticator :=
  if String.eqb type "azcli" || String.eqb type "env" then
    do! construct (newDefaultAzureCredential idp None) in
    let credential := Single DefaultAzureCredential in
    match tenantId with
    | Some t =>
        if Js.truthy tenantId && String.eqb type "azcli"
        then
          do! construct (newAzureCliCredential idp t) in
          ret (FromCredential
                 (ChainedTokenCredential [AzureCliCredential t; DefaultAzureCredential]))
        else ret (FromCredential credential)
    | None => ret (FromCredential credential)
    end
  else if String.eqb type "external" then
    ret FromExternal
  else if String.eqb type "obo" then
    match options with
    | Some {| clientId := Some id; clientSecret := Some secret |} =>
        if Js.truthy (Some id) && Js.truthy (Some secret)
        then ret (FromObo (newOboAuthenticator id secret tenantId))
        else throw (Error "OBO requires clientId and clientSecret.")
    | _ => throw (Error "OBO requires clientId and clientSecret.")
    end
  else
    let! authenticator := newOAuthAuthenticator tenantId in
    ret (FromOAuth authenticator).

End Auth.

(** ** [index.ts] *)

Module Index.

Import Js.

(** *** The authenticator of [main] *)

(** [tokenProvider]: declared without parameters, so an argument passed
    to it is dropped; it reads the variable [externalToken]. *)
Definition tokenProvider (_ : option string) : M string :=
  let! current := gets externalToken in
  match current with
  | Some t =>
      if truthy current then ret t
      else throw (Error "External token must be provided for 'external' auth type.")
  | None => throw (Error "External token must be provided for 'external' auth type.")
  end.

Record Argv := { authentication : string; tenant : option string }.

Record ProcessEnv := {
  AZURE_CLIENT_ID : option string;
  AZURE_CLIENT_SECRET : option string
}.

(** What [let authenticator] holds before it is wrapped. *)
Inductive Original :=
| TokenProvider
| Created (a : Auth.Authenticator).

Definition selectAuthenticator (idp : Auth.IdentityProvider) (argv : Argv)
    (env : ProcessEnv) : M Original :=
  if String.eqb (authentication argv) "external" then
    ret TokenProvider
  else if String.eqb (authentication argv) "obo" then
    if negb (truthy (AZURE_CLIENT_ID env)) || negb (truthy (AZURE_CLIENT_SECRET env)) then
      throw (Error "OBO authentication requires AZURE_CLIENT_ID and AZURE_CLIENT_SECRET environment variables.")
    else
      let! a := Auth.createAuthenticator idp "obo" (tenant argv)
                  (Some {| Auth.clientId := AZURE_CLIENT_ID env;
                           Auth.clientSecret := AZURE_CLIENT_SECRET env |}) in
      ret (Created a)
  else
    let! a := Auth.createAuthenticator idp (authentication argv) (tenant argv) None in
    ret (Created a).

Definition callOriginal (idp : Auth.IdentityProvider) (o : Original)
    (userAssertion : option string) : M string :=
  match o with
  | TokenProvider => tokenProvider userAssertion
  | Created a => Auth.call idp a userAssertion
  end.

(** The wrapper assigned to [authenticator]. *)
Definition authenticator (originalAuthenticator : option string -> M string)
    (userAssertion : option string) : M string :=
  if truthy userAssertion then originalAuthenticator userAssertion
  else
    let! current := gets externalToken in
    if truthy current then originalAuthenticator current
    else originalAuthenticator None.

(** *** The HTTP transport *)

Record Request := {
  mcpSessionId : option string;       (* [req.headers["mcp-session-id"]] *)
  authorization : option string;      (* [req.headers["authorization"]] *)
  body : option Json                  (* [req.body] *)
}.

Inductive Reply :=
| JsonReply (status : Z) (payload : Json)      (* [res.status(s).json(payload)] *)
| TextReply (status : Z) (payload : string)    (* [res.status(s).send(payload)] *)
| TransportReply (transport : Handle).         (* written by [transport.handleRequest] *)

(** [isInitializeBody] *)
Definition isInitializeBody (body : option Json) : bool :=
  match body with
  | Some (JObj fields) =>
      match prop "method" fields with
      | Some (JStr m) => String.eqb m "initialize"
      | _ => false
      end
  | _ => false
  end.

(** A value of [crypto.randomUUID()]: the random bits of a version 4
    UUID, written as five groups of hexadecimal digits joined by
    hyphens, xxxxxxxx-xxxx-4xxx-yxxx-xxxxxxxxxxxx with y among 8, 9, a
    and b. *)
Record Uuid := {
  timeLow : N;
  timeMid : N;
  timeHigh : N;
  clockSeq : N;
  node : N
}.

Definition hexDigit (n : N) : ascii :=
  match n with
  | 0%N => "0" | 1%N => "1" | 2%N => "2" | 3%N => "3"
  | 4%N => "4" | 5%N => "5" | 6%N => "6" | 7%N => "7"
  | 8%N => "8" | 9%N => "9" | 10%N => "a" | 11%N => "b"
  | 12%N => "c" | 13%N => "d" | 14%N => "e" | _ => "f"
  end%char.

(** The last [digits] hexadecimal digits of [n]. *)
Fixpoint hex (digits : nat) (n : N) : string :=
  match digits with
  | O => ""
  | S d => hex d (n / 16) ++ String (hexDigit (n mod 16)) ""
  end.

Definition uuidString (u : Uuid) : string :=
  hex 8 (timeLow u) ++ "-" ++ hex 4 (timeMid u) ++ "-4" ++ hex 3 (timeHigh u)
  ++ "-" ++ String (hexDigit (8 + clockSeq u / 4096 mod 4)) (hex 3 (clockSeq u))
  ++ "-" ++ hex 12 (node u).

(** What the SDK signals on a transport. *)
Inductive Notification :=
| SessionInitialized (generated : Uuid)
| Closed.

(** What the SDK does with one request: whether [server.connect]
    settles, what [transport.handleRequest] signals while it runs, and
    how it settles. *)
Record Sdk := {
  connected : Settled unit;
  notifications : list Notification;
  handled : Settled unit
}.

(** [onsessioninitialized: (sessionId) => { transports[sessionId] = transport }] *)
Definition onsessioninitialized (transport : Handle) (sid : string) : M unit :=
  do! setTransports (fun registry => <[sid := transport]> registry) in
  emit (RegistrySet sid transport).

(** [transport.onclose] *)
Definition onclose (transport : Handle) : M unit :=
  let! allocated := gets objects in
  match allocated !! transport with
  | Some t =>
      match sessionId t with
      | Some sid =>
          if truthy (sessionId t) then
            do! setTransports (fun registry => delete sid registry) in
            emit (RegistryDelete sid)
          else ret tt
      | None => ret tt
      end
  | None => ret tt
  end.

(** The SDK side of a notification. On initialisation an id is
    generated with [sessionIdGenerator] for a transport that has none
    yet, stored in [transport.sessionId], and announced through
    [onsessioninitialized]; an initialised transport refuses to be
    initialised again. On close the handler assigned to
    [transport.onclose] is called. *)
Definition deliver (transport : Handle) (n : Notification) : M unit :=
  match n with
  | SessionInitialized generated =>
      let! allocated := gets objects in
      match allocated !! transport with
      | Some {| sessionId := None |} =>
          do! setObjects (fun objs =>
                <[transport := {| sessionId := Some (uuidString generated) |}]> objs) in
          onsessioninitialized transport (uuidString generated)
      | _ => ret tt
      end
  | Closed => onclose transport
  end.

Fixpoint deliverAll (transport : Handle) (ns : list Notification) : M unit :=
  match ns with
  | [] => ret tt
  | n :: rest => do! deliver transport n in deliverAll transport rest
  end.

(** [await transport.handleRequest(req, res, req.body)] *)
Definition handleRequest (sdk : Sdk) (transport : Handle) : M unit :=
  do! emit (HandleRequest transport) in
  do! deliverAll transport (notifications sdk) in
  await (handled sdk).

(** [new StreamableHTTPServerTransport({...})] followed by the
    assignment of [transport.onclose]. *)
Definition newTransport : M Handle :=
  let! allocated := gets objects in
  let transport := length allocated in
  do! setObjects (fun objs => (objs ++ [{| sessionId := None |}])%list) in
  do! emit (NewTransport transport) in
  ret transport.

(** The property names a plain object inherits from
    [Object.prototype]. *)
Definition objectPrototypeNames : list string :=
  ["constructor"; "__defineGetter__"; "__defineSetter__"; "hasOwnProperty";
   "__lookupGetter__"; "__lookupSetter__"; "isPrototypeOf"; "propertyIsEnumerable";
   "toString"; "valueOf"; "__proto__"; "toLocaleString"].

Definition inherited (name : string) : bool :=
  existsb (String.eqb name) objectPrototypeNames.

(** What [transports[sessionId]] finds when it finds something: a
    transport stored under that id, or else the member of
    [Object.prototype] of that name, which is not a transport. *)
Inductive Found :=
| Own (transport : Handle)
| Inherited (name : string).

(** [sessionId && transports[sessionId]] *)
Definition registered (registry : gmap string Handle) (sessionId : option string)
    : option Found :=
  match sessionId with
  | Some sid =>
      if truthy sessionId then
        match registry !! sid with
        | Some transport => Some (Own transport)
        | None => if inherited sid then Some (Inherited sid) else None
        end
      else None
  | None => None
  end.

(** Calling [handleRequest] on what is not a transport. *)
Definition notAFunction : Exn := TypeError "transport.handleRequest is not a function".

Definition userTokenRequired : Reply :=
  JsonReply 400 (JObj [("error", JStr "User token required for OBO authentication")]).

Definition noValidSession : Reply :=
  JsonReply 400
    (JObj [("jsonrpc", JStr "2.0");
           ("error", JObj [("code", JNum (-32000));
                           ("message", JStr "Bad Request: No valid session ID provided")]);
           ("id", JNull)]).

(** [app.post("/mcp", ...)] *)
Definition post (mode : string) (sdk : Sdk) (req : Request) : M Reply :=
  let sessionId := mcpSessionId req in
  let! admitted :=
    if String.eqb mode "external" then
      do! setExternalToken (secondWord (authorization req)) in
      ret true
    else if String.eqb mode "obo" then
      let userAssertion := secondWord (authorization req) in
      if negb (truthy userAssertion) then ret false
      else
        do! setExternalToken userAssertion in
        ret true
    else ret true in
  if negb admitted then ret userTokenRequired
  else
    let finally : M unit :=
      if String.eqb mode "obo" then setExternalToken None else ret tt in
    let serve (transport : Handle) : M Reply :=
      do! tryFinally (handleRequest sdk transport) finally in
      ret (TransportReply transport) in
    let! registry := gets transports in
    match registered registry sessionId with
    | Some (Own transport) => serve transport
    | Some (Inherited _) => tryFinally (throw notAFunction) finally
    | None =>
        if negb (truthy sessionId) && isInitializeBody (body req) then
          let! transport := newTransport in
          do! emit (Connect transport) in
          do! await (connected sdk) in
          serve transport
        else ret noValidSession
    end.

(** [handleSessionRequest], bound to GET and DELETE. *)
Definition handleSessionRequest (sdk : Sdk) (req : Request) : M Reply :=
  let! registry := gets transports in
  match registered registry (mcpSessionId req) with
  | None => ret (TextReply 400 "Invalid or missing session ID")
  | Some (Own transport) =>
      do! handleRequest sdk transport in
      ret (TransportReply transport)
  | Some (Inherited _) => throw notAFunction
  end.

(** One thing that happens to the running server. *)
Inductive Step :=
| Post (sdk : Sdk) (req : Request)
| GetOrDelete (sdk : Sdk) (req : Request)
| Signal (transport : Handle) (n : Notification).   (* the SDK signals outside a handler *)

Definition step (mode : string) (s : Step) (w : World) : World :=
  match s with
  | Post sdk req => snd (post mode sdk req w)
  | GetOrDelete sdk req => snd (handleSessionRequest sdk req w)
  | Signal transport n => snd (deliver transport n w)
  end.

Definition run (mode : string) (steps : list Step) (w : World) : World :=
  fold_left (fun w s => step mode s w) steps w.

(** *** Start-up defaults and the client factory *)

(** [isGitHubCodespaceEnv], reading [process.env]. *)
Record CodespaceEnv := {
  CODESPACES : option string;
  CODESPACE_NAME : option string
}.

Definition isGitHubCodespaceEnv (env : CodespaceEnv) : bool :=
  match CODESPACES env with
  | Some v => String.eqb v "true"
  | None => false
  end && truthy (CODESPACE_NAME env).

(** [defaultAuthenticationType] *)
Definition defaultAuthenticationType (env : CodespaceEnv) : string :=
  if isGitHubCodespaceEnv env then "azcli" else "interactive".

(** [orgUrl] *)
Definition orgUrl (orgName : string) : string := "https://dev.azure.com/" ++ orgName.

(** [new azdev.WebApi(orgUrl, authHandler, undefined, {...})], with the
    bearer handler kept as the token it was made from. *)
Record WebApi := {
  serverUrl : string;
  bearerHandler : string;
  productName : string;
  productVersion : string;
  userAgent : string
}.

(** The function returned by [getAzureDevOpsClient]; [composedAgent] is
    what [userAgentComposer.userAgent] holds when the client is built. *)
Definition getAzureDevOpsClient (orgName packageVersion composedAgent : string)
    (getAzureDevOpsToken : option string -> M string)
    (userAssertion : option string) : M WebApi :=
  let! accessToken := getAzureDevOpsToken userAssertion in
  ret {| serverUrl := orgUrl orgName;
         bearerHandler := accessToken;
         productName := "AzureDevOps.MCP";
         productVersion := packageVersion;
         userAgent := composedAgent |}.

End Index.

(** ** The other versions kept in the sources *)

(** [unnamed/part_000]: the factory before "obo" was added. Its
    [OAuthAuthenticator] and its closures are those of [Auth]. *)
Module AuthUpstream.

Definition createAuthenticator (idp : Auth.IdentityProvider) (type : string)
    (tenantId : option string) : M Auth.Authenticator :=
  if String.eqb type "azcli" || String.eqb type "env" then
    do! Auth.construct (Auth.newDefaultAzureCredential idp None) in
    match tenantId with
    | Some t =>
        if Js.truthy tenantId
        then
          do! Auth.construct (Auth.newAzureCliCredential idp t) in
          ret (Auth.FromCredential
                 (ChainedTokenCredential [AzureCliCredential t; DefaultAzureCredential]))
        else ret (Auth.FromCredential (Single DefaultAzureCredential))
    | None => ret (Auth.FromCredential (Single DefaultAzureCredential))
    end
  else if String.eqb type "external" then
    ret Auth.FromExternal
  else
    let! authenticator := Auth.newOAuthAuthenticator tenantId in
    ret (Auth.FromOAuth authenticator).

End AuthUpstream.

(** The second document of [src/auth.ts]: the on-behalf-of assertion is
    fixed when the authenticator is built, and there is no "external"
    case. *)
Module AuthDraft2.

Record Options := {
  clientId : option string;
  clientSecret : option string;
  userAssertion : option string
}.

(** [new OboAuthenticator(clientId, clientSecret, tenantId || "common")] *)
Definition newOboAuthenticator (clientId clientSecret : string)
    (tenantId : option string) : Auth.OboAuthenticator :=
  {| Auth.cca := {| Auth.ccaClientId := clientId;
                    Auth.ccaClientSecret := clientSecret;
                    Auth.ccaAuthority :=
                      Auth.login (match tenantId with
                                  | Some t => if Js.truthy tenantId then t else "common"
                                  | None => "common"
                                  end) |} |}.

Inductive Authenticator :=
| FromObo (oboAuth : Auth.OboAuthenticator) (userAssertion : string)
| FromCredential (credential : TokenCredential)
| FromOAuth (oauthAuth : Auth.OAuthAuthenticator).

Definition createAuthenticator (idp : Auth.IdentityProvider) (type : string)
    (tenantId : option string) (options : option Options) : M Authenticator :=
  if String.eqb type "obo" then
    match options with
    | Some {| clientId := Some id; clientSecret := Some secret; userAssertion := Some ua |} =>
        if Js.truthy (Some id) && Js.truthy (Some secret) && Js.truthy (Some ua)
        then ret (FromObo (newOboAuthenticator id secret tenantId) ua)
        else throw (Error "OBO requires clientId, clientSecret, and userAssertion.")
    | _ => throw (Error "OBO requires clientId, clientSecret, and userAssertion.")
    end
  else if String.eqb type "azcli" || String.eqb type "env" then
    let! assignedValue :=
      if negb (String.eqb type "env") then
        do! emit (SetEnv "AZURE_TOKEN_CREDENTIALS" "dev") in
        ret (Some "dev")
      else ret None in
    do! Auth.construct (Auth.newDefaultAzureCredential idp assignedValue) in
    match tenantId with
    | Some t =>
        if Js.truthy tenantId
        then
          do! Auth.construct (Auth.newAzureCliCredential idp t) in
          ret (FromCredential
                 (ChainedTokenCredential [AzureCliCredential t; DefaultAzureCredential]))
        else ret (FromCredential (Single DefaultAzureCredential))
    | None => ret (FromCredential (Single DefaultAzureCredential))
    end
  else
    let! oauthAuth := Auth.newOAuthAuthenticator tenantId in
    ret (FromOAuth oauthAuth).

Section Calls.

Variable idp : Auth.IdentityProvider.

(** [OboAuthenticator.getToken] *)
Definition getToken (self : Auth.OboAuthenticator) (userAssertion : string) : M string :=
  do! emit (AcquireTokenOnBehalfOf userAssertion) in
  let! result := await (Auth.acquireTokenOnBehalfOf idp (Auth.cca self) userAssertion) in
  match result with
  | Some r =>
      if Js.truthy (Some (accessToken r)) then ret (accessToken r)
      else throw (Error "Failed to obtain Azure DevOps token via OBO.")
  | None => throw (Error "Failed to obtain Azure DevOps token via OBO.")
  end.

(** Calling the closure: none of the three reads its argument. *)
Definition call (a : Authenticator) (_ : option string) : M string :=
  match a with
  | FromObo oboAuth userAssertion => getToken oboAuth userAssertion
  | FromCredential credential =>
      let! result := Auth.credentialGetToken idp credential in
      match result with
      | Some r => ret (token r)
      | None =>
          throw (Error "Failed to obtain Azure DevOps token. Ensure Azure CLI is logged in or use interactive authentication.")
      end
  | FromOAuth oauthAuth => Auth.getToken idp oauthAuth
  end.

End Calls.

End AuthDraft2.

(** The second document of [src/index.ts]: no identity step, no wrapper,
    no [finally]. *)
Module IndexDraft2.

(** [app.post('/mcp', ...)] *)
Definition post (sdk : Index.Sdk) (req : Index.Request) : M Index.Reply :=
  let sessionId := Index.mcpSessionId req in
  let! registry := gets transports in
  let! transport :=
    match Index.registered registry sessionId with
    | Some found => ret (Some found)
    | None =>
        if negb (Js.truthy sessionId) && Index.isInitializeBody (Index.body req) then
          let! transport := Index.newTransport in
          do! emit (Connect transport) in
          do! await (Index.connected sdk) in
          ret (Some (Index.Own transport))
        else ret None
    end in
  match transport with
  | Some (Index.Own transport) =>
      do! Index.handleRequest sdk transport in
      ret (Index.TransportReply transport)
  | Some (Index.Inherited _) => throw Index.notAFunction
  | None => ret Index.noValidSession
  end.

End IndexDraft2.

(** ** Vocabulary of the properties *)

(** Sample answers of the identity libraries, used to run the back ends
    on concrete inputs. *)

Definition alice : AccountInfo := {| homeAccountId := "alice" |}.

(** Every flow succeeds. *)
Definition grantingIdp : Auth.IdentityProvider :=
  {| Auth.acquireTokenSilent := fun _ a =>
       Resolved {| accessToken := "silent-token"; account := Some a |};
     Auth.acquireTokenInteractive := fun _ =>
       Resolved {| accessToken := "interactive-token"; account := Some alice |};
     Auth.acquireTokenOnBehalfOf := fun _ assertion =>
       Resolved (Some {| accessToken := "obo:" ++ assertion; account := None |});
     Auth.sourceToken := fun s =>
       match s with
       | AzureCliCredential _ => Resolved (Some {| token := "cli-token"; expiresOnTimestamp := 0 |})
       | DefaultAzureCredential => Rejected "CredentialUnavailableError"
       end;
     Auth.newDefaultAzureCredential := fun _ => Resolved tt;
     Auth.newAzureCliCredential := fun _ => Resolved tt |}.

(** The silent refresh is refused and the person closes the browser. *)
Definition cancellingIdp : Auth.IdentityProvider :=
  {| Auth.acquireTokenSilent := fun _ _ => Rejected "InteractionRequiredAuthError";
     Auth.acquireTokenInteractive := fun _ => Rejected "user_cancelled";
     Auth.acquireTokenOnBehalfOf := fun _ _ => Rejected "invalid_grant";
     Auth.sourceToken := fun _ => Rejected "CredentialUnavailableError";
     Auth.newDefaultAzureCredential := fun _ => Resolved tt;
     Auth.newAzureCliCredential := fun _ => Resolved tt |}.

(** [options] lacks a usable [clientId] or [clientSecret]. *)
Definition credentialsMissing (options : option Auth.Options) : bool :=
  match options with
  | Some o => negb (Js.truthy (Auth.clientId o)) || negb (Js.truthy (Auth.clientSecret o))
  | None => true
  end.

(** A process whose [externalToken] currently holds [t]. *)
Definition holding (t : string) : World := mkWorld None (Some t) ∅ [] [].

(** A back end that reports the argument it was called with. *)
Definition probe (userAssertion : option string) : M string :=
  match userAssertion with
  | Some t => ret ("called with " ++ t)
  | None => ret "called without"
  end.

(** The token a settled source contributes to a chain, if any. *)
Definition yields (idp : Auth.IdentityProvider) (s : Source) : option AccessToken :=
  match Auth.sourceToken idp s with
  | Resolved (Some t) => Some t
  | _ => None
  end.

(** A chain passes the source on to the next one: it resolved without
    a token, or it rejected with an error the chain steps over. *)
Definition passed (idp : Auth.IdentityProvider) (s : Source) : bool :=
  match Auth.sourceToken idp s with
  | Resolved (Some _) => false
  | Resolved None => true
  | Rejected name => Auth.unavailable name
  end.

(** The source rejected with an error the chain steps over. *)
Definition steppedOver (idp : Auth.IdentityProvider) (s : Source) : bool :=
  match Auth.sourceToken idp s with
  | Rejected name => Auth.unavailable name
  | Resolved _ => false
  end.

(** The error of a chain whose sources have all been passed. *)
Definition exhausted (idp : Auth.IdentityProvider) (sources : list Source) : Exn :=
  if existsb (steppedOver idp) sources
  then LibraryError "AggregateAuthenticationError"
  else LibraryError "CredentialUnavailableError".

(** The credential constructors accept what the factory hands them. *)
Definition constructs (idp : Auth.IdentityProvider) (AZURE_TOKEN_CREDENTIALS : option string)
    (tenantId : string) : Prop :=
  Auth.newDefaultAzureCredential idp AZURE_TOKEN_CREDENTIALS = Resolved tt
  /\ Auth.newAzureCliCredential idp tenantId = Resolved tt.

(** The outcome of [getToken] once a flow has produced [r]. *)
Definition usable (r : AuthenticationResult) : Completion string :=
  if String.eqb (accessToken r) ""
  then Throw (Error "Failed to obtain Azure DevOps OAuth token.")
  else Return (accessToken r).

Definition externalTokenRequired : Exn :=
  Error "External token must be provided for 'external' auth type.".

(** [w] after the effects [es] have been recorded. *)
Definition logged (es : list Effect) (w : World) : World :=
  mkWorld (accountId w) (externalToken w) (transports w) (objects w) (trace w ++ es).

(** [w] after [OAuthAuthenticator.accountId] has been set to [a]. *)
Definition signedIn (a : option AccountInfo) (w : World) : World :=
  mkWorld a (externalToken w) (transports w) (objects w) (trace w).

(** An interactive authenticator for the common authority. *)
Definition commonOAuth : Auth.OAuthAuthenticator :=
  {| Auth.publicClientApp := {| Auth.authority := Auth.defaultAuthority |} |}.

(** [w] after [externalToken] has been assigned [t]. *)
Definition assigned (t : option string) (w : World) : World :=
  mkWorld (accountId w) t (transports w) (objects w) (trace w).

(** [w] after one more transport has been allocated. *)
Definition allocated (w : World) : World :=
  mkWorld (accountId w) (externalToken w) (transports w)
          (objects w ++ [{| sessionId := None |}]) (trace w).

(** The bearer value of a request. *)
Definition bearer (req : Index.Request) : option string :=
  Js.secondWord (Index.authorization req).

(** The transports that were handed a request, in order. *)
Definition requestsHandled (tr : list Effect) : list Handle :=
  omap (fun e => match e with HandleRequest h => Some h | _ => None end) tr.

(** The transports that were created, in order. *)
Definition transportsCreated (tr : list Effect) : list Handle :=
  omap (fun e => match e with NewTransport h => Some h | _ => None end) tr.

(** The ids removed from the registry, in order. *)
Definition removals (tr : list Effect) : list string :=
  omap (fun e => match e with RegistryDelete sid => Some sid | _ => None end) tr.

(** Effects on the registry, the only ones a notification causes. *)
Definition onRegistry (e : Effect) : Prop :=
  match e with
  | RegistrySet _ _ | RegistryDelete _ => True
  | _ => False
  end.

(** What a handler hands back once [transport.handleRequest] settled. *)
Definition settledReply (sdk : Index.Sdk) (transport : Handle) : Completion Index.Reply :=
  match Index.handled sdk with
  | Resolved _ => Return (Index.TransportReply transport)
  | Rejected name => Throw (LibraryError name)
  end.

(** The state the SDK leaves behind after handling a request on
    [transport], started in [w]. *)
Definition served (sdk : Index.Sdk) (transport : Handle) (w : World) : World :=
  snd (Index.deliverAll transport (Index.notifications sdk)
         (logged [HandleRequest transport] w)).

(** Every registry entry names a transport that carries that very id. *)
Definition registryConsistent (w : World) : Prop :=
  forall sid h, transports w !! sid = Some h ->
    exists t, objects w !! h = Some t /\ sessionId t = Some sid.

(** No transport carries the empty string as its id. *)
Definition idsNonEmpty (w : World) : Prop :=
  forall h t, objects w !! h = Some t -> sessionId t <> Some "".

(** [R] relates the state before a computation to the state after it. *)
Definition across (R : World -> World -> Prop) {A : Type} (c : M A) : Prop :=
  forall w, R w (snd (c w)).

(** What a notification leaves alone: the account, the external token,
    the number of transports; and it records registry effects only. *)
Definition quiet (w w' : World) : Prop :=
  accountId w' = accountId w
  /\ externalToken w' = externalToken w
  /\ length (objects w') = length (objects w)
  /\ exists es, trace w' = (trace w ++ es)%list /\ Forall onRegistry es.

(** Ids that were assigned are still in place. *)
Definition idsKept (w w' : World) : Prop :=
  forall h t sid, objects w !! h = Some t -> sessionId t = Some sid ->
    exists t', objects w' !! h = Some t' /\ sessionId t' = Some sid.

Definition wellFormed (w : World) : Prop := registryConsistent w /\ idsNonEmpty w.

(** The state after the identity of a request has been taken in. *)
Definition identified (mode : string) (req : Index.Request) (w : World) : World :=
  if String.eqb mode "external" || String.eqb mode "obo"
  then assigned (bearer req) w
  else w.

(** The state after the [finally] block of the POST handler. *)
Definition released (mode : string) (w : World) : World :=
  if String.eqb mode "obo" then assigned None w else w.

(** The request passes the identity step of the POST handler. *)
Definition admitted (mode : string) (req : Index.Request) : bool :=
  negb (String.eqb mode "obo") || Js.truthy (bearer req).

(** Sample traffic. *)

(** A server holding one session, "s1", on transport 0. *)
Definition oneSession : World :=
  mkWorld None None {["s1" := 0]} [{| sessionId := Some "s1" |}] [].

(** The SDK handles the request and signals nothing. *)
Definition quietSdk : Index.Sdk :=
  {| Index.connected := Resolved tt;
     Index.notifications := [];
     Index.handled := Resolved tt |}.

(** The SDK generates the id 00000000-0000-4000-8000-000000000002 for a
    new session. *)
Definition initializingSdk : Index.Sdk :=
  {| Index.connected := Resolved tt;
     Index.notifications :=
       [Index.SessionInitialized
          {| Index.timeLow := 0; Index.timeMid := 0; Index.timeHigh := 0;
             Index.clockSeq := 0; Index.node := 2 |}];
     Index.handled := Resolved tt |}.

(** The tool run by the request throws. *)
Definition failingSdk : Index.Sdk :=
  {| Index.connected := Resolved tt;
     Index.notifications := [];
     Index.handled := Rejected "ToolError" |}.

Definition initializeBody : Js.Json := Js.JObj [("method", Js.JStr "initialize")].

Definition toolCallBody : Js.Json := Js.JObj [("method", Js.JStr "tools/call")].

(** The notifications the SDK may deliver in the course of a step. *)
Definition signals (s : Index.Step) : list Index.Notification :=
  match s with
  | Index.Post sdk _ | Index.GetOrDelete sdk _ => Index.notifications sdk
  | Index.Signal _ n => [n]
  end.

(** The SDK closes the connection while it handles the request, as it
    does for a DELETE. *)
Definition closingSdk : Index.Sdk :=
  {| Index.connected := Resolved tt;
     Index.notifications := [Index.Closed];
     Index.handled := Resolved tt |}.

(** The outcome of the on-behalf-of exchange once the provider has
    answered [r]. *)
Definition exchanged (r : option AuthenticationResult) : Completion string :=
  match r with
  | Some a =>
      if String.eqb (accessToken a) "" then Throw (Error "Failed to obtain OBO token.")
      else Return (accessToken a)
  | None => Throw (Error "Failed to obtain OBO token.")
  end.

(** The provider of [grantingIdp], except that the interactive flow
    hands back an account and no access token. *)
Definition tokenlessIdp : Auth.IdentityProvider :=
  {| Auth.acquireTokenSilent := Auth.acquireTokenSilent grantingIdp;
     Auth.acquireTokenInteractive := fun _ =>
       Resolved {| accessToken := ""; account := Some alice |};
     Auth.acquireTokenOnBehalfOf := Auth.acquireTokenOnBehalfOf grantingIdp;
     Auth.sourceToken := Auth.sourceToken grantingIdp;
     Auth.newDefaultAzureCredential := fun _ => Resolved tt;
     Auth.newAzureCliCredential := fun _ => Resolved tt |}.

Definition contosoObo : Auth.OboAuthenticator :=
  Auth.newOboAuthenticator "app" "s3cret" (Some "contoso").

Definition codespace : Index.CodespaceEnv :=
  {| Index.CODESPACES := Some "true"; Index.CODESPACE_NAME := Some "crispy-space" |}.

Definition oboEnv : Index.ProcessEnv :=
  {| Index.AZURE_CLIENT_ID := Some "app"; Index.AZURE_CLIENT_SECRET := Some "s3cret" |}.

Definition oboArgv : Index.Argv :=
  {| Index.authentication := "obo"; Index.tenant := Some "contoso" |}.

(** The step is a POST that passes the identity step, names no
    session and carries an initialize call. *)
Definition establishes (mode : string) (s : Index.Step) : bool :=
  match s with
  | Index.Post _ req =>
      admitted mode req
      && negb (Js.truthy (Index.mcpSessionId req))
      && Index.isInitializeBody (Index.body req)
  | _ => false
  end.

(** The ids the SDK generates in a list of notifications. *)
Definition generated (ns : list Index.Notification) : list string :=
  omap (fun n => match n with
                 | Index.SessionInitialized u => Some (Index.uuidString u)
                 | Index.Closed => None
                 end) ns.

(** [c] occurs in [s]. *)
Fixpoint contains (c : ascii) (s : string) : bool :=
  match s with
  | EmptyString => false
  | String c' rest => Ascii.eqb c' c || contains c rest
  end.

(** The provider of [grantingIdp], except that the Azure CLI credential
    refuses a tenant id with a space in it, and that the CLI source
    fails with an error a chain does not step over. *)
Definition strictIdp : Auth.IdentityProvider :=
  {| Auth.acquireTokenSilent := Auth.acquireTokenSilent grantingIdp;
     Auth.acquireTokenInteractive := Auth.acquireTokenInteractive grantingIdp;
     Auth.acquireTokenOnBehalfOf := Auth.acquireTokenOnBehalfOf grantingIdp;
     Auth.sourceToken := fun s =>
       match s with
       | AzureCliCredential _ => Rejected "Error"
       | DefaultAzureCredential =>
           Resolved (Some {| token := "default-token"; expiresOnTimestamp := 0 |})
       end;
     Auth.newDefaultAzureCredential := fun _ => Resolved tt;
     Auth.newAzureCliCredential := fun t =>
       if contains " "%char t then Rejected "Error" else Resolved tt |}.

(** The version 4 UUID whose random bits are all zero but the last. *)
Definition sampleUuid : Index.Uuid :=
  {| Index.timeLow := 0; Index.timeMid := 0; Index.timeHigh := 0;
     Index.clockSeq := 0; Index.node := 2 |}.

Definition sampleId : string := "00000000-0000-4000-8000-000000000002".

(** ** Properties *)

Local Open Scope list_scope.

Ltac run_m :=
  unfold bind, ret, throw, gets, modify, emit, await, tryCatch, tryFinally,
    setAccountId, setExternalToken, setTransports, setObjects in *;
  simpl in *.

Lemma truthy_true (v : option string) :
  Js.truthy v = true <-> exists s, v = Some s /\ s <> "".
Proof.
  destruct v as [s|]; simpl.
  - rewrite negb_true_iff. split.
    + intros H. exists s. split; [reflexivity|]. intros ->. discriminate.
    + intros (s' & [= <-] & Hne). apply String.eqb_neq. exact Hne.
  - split; [discriminate | intros (s & H & _); discriminate].
Qed.

Lemma truthy_false (v : option string) :
  Js.truthy v = false <-> v = None \/ v = Some "".
Proof.
  destruct v as [s|]; simpl.
  - rewrite negb_false_iff. split.
    + intros H%String.eqb_eq. right. congruence.
    + intros [H|[= ->]]; [discriminate | reflexivity].
  - split; [auto | reflexivity].
Qed.

Lemma truthy_Some_ne (s : string) : s <> "" -> Js.truthy (Some s) = true.
Proof. intros H. apply truthy_true. eauto. Qed.

(** The header [Authorization: Bearer abc] carries the bearer value
    "abc"; a header with the scheme alone carries none; two spaces after
    the scheme give the empty string. *)
Example secondWord_examples :
  Js.split " "%char "Bearer abc" = ["Bearer"; "abc"]
  /\ Js.secondWord (Some "Bearer abc") = Some "abc"
  /\ Js.secondWord (Some "Bearer") = None
  /\ Js.secondWord (Some "Bearer  abc") = Some ""
  /\ Js.secondWord None = None.
Proof. repeat split. Qed.

Example isInitializeBody_examples :
  Index.isInitializeBody (Some initializeBody) = true
  /\ Index.isInitializeBody (Some toolCallBody) = false
  /\ Index.isInitializeBody (Some (Js.JArr [initializeBody])) = false
  /\ Index.isInitializeBody (Some (Js.JStr "initialize")) = false
  /\ Index.isInitializeBody None = false.
Proof. repeat split. Qed.

(** *** The factory *)

(** C10. Any [type] other than "azcli", "env", "external" and "obo"
    (the empty string and misspellings included) makes
    [createAuthenticator] return the interactive back end: it does not
    throw, and the new [OAuthAuthenticator] starts without an account.
    This holds for the factory of [auth.ts] and for its two other
    versions. *)
Theorem createAuthenticator_default_interactive
    (idp : Auth.IdentityProvider)
    (type : string) (tenantId : option string) (options : option Auth.Options)
    (options2 : option AuthDraft2.Options) (w : World) :
  type <> "azcli" -> type <> "env" -> type <> "external" -> type <> "obo" ->
  (exists oauth,
     Auth.createAuthenticator idp type tenantId options w
       = (Return (Auth.FromOAuth oauth), signedIn None w))
  /\ (exists oauth,
     AuthUpstream.createAuthenticator idp type tenantId w
       = (Return (Auth.FromOAuth oauth), signedIn None w))
  /\ (exists oauth,
     AuthDraft2.createAuthenticator idp type tenantId options2 w
       = (Return (AuthDraft2.FromOAuth oauth), signedIn None w)).
Proof.
  intros H1 H2 H3 H4.
  apply String.eqb_neq in H1, H2, H3, H4.
  unfold Auth.createAuthenticator, AuthUpstream.createAuthenticator,
    AuthDraft2.createAuthenticator.
  rewrite H1, H2, H3, H4. simpl.
  unfold Auth.newOAuthAuthenticator, signedIn. run_m.
  split; [|split]; eexists; reflexivity.
Qed.

Lemma createAuthenticator_default_interactive_witness :
  (exists oauth,
     Auth.createAuthenticator cancellingIdp "interactiv" None None initial
       = (Return (Auth.FromOAuth oauth), signedIn None initial))
  /\ (exists oauth,
     AuthUpstream.createAuthenticator cancellingIdp "" None initial
       = (Return (Auth.FromOAuth oauth), signedIn None initial)).
Proof.
  split.
  - apply (createAuthenticator_default_interactive cancellingIdp "interactiv" None None None
             initial);
      discriminate.
  - apply (createAuthenticator_default_interactive cancellingIdp "" None None None initial);
      discriminate.
Defined.

(** C4. [createAuthenticator("obo", ...)] throws when [clientId] or
    [clientSecret] is missing; and an on-behalf-of authenticator that was
    built, called without a user assertion, throws at the call, whatever
    its credentials are and whatever the identity provider would answer,
    without calling it. *)
Theorem obo_missing_inputs_fail
    (idp : Auth.IdentityProvider) (tenantId : option string)
    (options : option Auth.Options) (userAssertion : option string) (w : World) :
  (credentialsMissing options = true ->
     Auth.createAuthenticator idp "obo" tenantId options w
       = (Throw (Error "OBO requires clientId and clientSecret."), w))
  /\ (forall a w', Auth.createAuthenticator idp "obo" tenantId options w = (Return a, w') ->
      Js.truthy userAssertion = false ->
      forall w1, Auth.call idp a userAssertion w1
                 = (Throw (Error "OBO flow requires a user token to exchange."), w1)).
Proof.
  unfold Auth.createAuthenticator. simpl. split.
  - intros Hmiss. destruct options as [[[id|] [secret|]]|]; simpl in *; try reflexivity.
    destruct (String.eqb id ""), (String.eqb secret ""); simpl in *;
      try discriminate; reflexivity.
  - intros a w' Hmk Hua w1.
    assert (exists obo, a = Auth.FromObo obo) as [obo ->].
    { destruct options as [[[id|] [secret|]]|]; run_m; try discriminate.
      destruct (_ && _); [|discriminate]. injection Hmk as <- _. eauto. }
    simpl. destruct userAssertion as [t|]; [|reflexivity].
    rewrite Hua. reflexivity.
Qed.

Lemma obo_missing_inputs_fail_witness :
  Auth.createAuthenticator grantingIdp "obo" (Some "contoso")
      (Some {| Auth.clientId := Some "app"; Auth.clientSecret := None |}) initial
    = (Throw (Error "OBO requires clientId and clientSecret."), initial)
  /\ Auth.call grantingIdp
       (Auth.FromObo (Auth.newOboAuthenticator "app" "s3cret" (Some "contoso"))) None initial
     = (Throw (Error "OBO flow requires a user token to exchange."), initial).
Proof.
  split.
  - apply (proj1 (obo_missing_inputs_fail grantingIdp (Some "contoso")
             (Some {| Auth.clientId := Some "app"; Auth.clientSecret := None |})
             None initial)).
    reflexivity.
  - apply (proj2 (obo_missing_inputs_fail grantingIdp (Some "contoso")
             (Some {| Auth.clientId := Some "app"; Auth.clientSecret := Some "s3cret" |})
             None initial) _ initial); reflexivity.
Defined.

(** *** The external back end *)

(** C5, as stated, fails: an empty assertion handed to the external back
    end of [createAuthenticator] is not returned, the call throws; and
    the [tokenProvider] that [main] installs in external mode drops its
    argument, so a supplied assertion is not what comes back. *)
Lemma external_passthrough_counterexample :
  Auth.call grantingIdp Auth.FromExternal (Some "") initial
    = (Throw externalTokenRequired, initial)
  /\ Index.tokenProvider (Some "A") initial = (Throw externalTokenRequired, initial)
  /\ Index.tokenProvider (Some "A") (holding "T") = (Return "T", holding "T").
Proof. repeat split. Qed.

(** C5, amended. The external back end of [createAuthenticator] returns
    a non-empty assertion unchanged and throws when the assertion is
    absent or empty; [tokenProvider] ignores its argument, returns the
    transient external token when that is non-empty and throws
    otherwise. Neither touches the process state. *)
Theorem external_passthrough
    (idp : Auth.IdentityProvider) (userAssertion : option string) (w : World) :
  (forall t, userAssertion = Some t -> t <> "" ->
     Auth.call idp Auth.FromExternal userAssertion w = (Return t, w))
  /\ (Js.truthy userAssertion = false ->
     Auth.call idp Auth.FromExternal userAssertion w = (Throw externalTokenRequired, w))
  /\ (forall t, externalToken w = Some t -> t <> "" ->
     Index.tokenProvider userAssertion w = (Return t, w))
  /\ (Js.truthy (externalToken w) = false ->
     Index.tokenProvider userAssertion w = (Throw externalTokenRequired, w)).
Proof.
  split; [|split; [|split]].
  - intros t -> Hne. simpl. apply String.eqb_neq in Hne. rewrite Hne. reflexivity.
  - intros Hf. simpl. destruct userAssertion; [|reflexivity].
    rewrite Hf. reflexivity.
  - intros t Ht Hne. unfold Index.tokenProvider. run_m. rewrite Ht.
    simpl. apply String.eqb_neq in Hne. rewrite Hne. reflexivity.
  - intros Hf. unfold Index.tokenProvider. run_m.
    destruct (externalToken w); [|reflexivity].
    rewrite Hf. reflexivity.
Qed.

Lemma external_passthrough_witness :
  Auth.call grantingIdp Auth.FromExternal (Some "T") initial = (Return "T", initial)
  /\ Auth.call grantingIdp Auth.FromExternal None initial
     = (Throw externalTokenRequired, initial)
  /\ Index.tokenProvider None (holding "T") = (Return "T", holding "T")
  /\ Index.tokenProvider (Some "A") initial = (Throw externalTokenRequired, initial).
Proof.
  pose proof (external_passthrough grantingIdp (Some "T") initial) as (H1 & _).
  pose proof (external_passthrough grantingIdp None initial) as (_ & H2 & _).
  pose proof (external_passthrough grantingIdp None (holding "T")) as (_ & _ & H3 & _).
  pose proof (external_passthrough grantingIdp (Some "A") initial) as (_ & _ & _ & H4).
  split; [|split; [|split]].
  - apply (H1 "T"); [reflexivity | discriminate].
  - apply H2. reflexivity.
  - apply (H3 "T"); [reflexivity | discriminate].
  - apply H4. reflexivity.
Defined.

(** *** The wrapper of [main] *)

(** C2, as stated, fails: an explicit assertion that is the empty string
    is not forwarded; with a transient token set, the back end is called
    with the transient token instead. *)
Lemma wrapper_precedence_counterexample :
  Index.authenticator probe (Some "") (holding "T") = probe (Some "T") (holding "T")
  /\ Index.authenticator probe (Some "") (holding "T") <> probe (Some "") (holding "T").
Proof. split; [reflexivity | discriminate]. Qed.

(** C2, amended. The wrapper forwards a non-empty explicit assertion to
    the back end; with the assertion absent or empty it forwards the
    transient external token when that is set to a non-empty string;
    otherwise it calls the back end without an assertion. *)
Theorem wrapper_precedence
    (originalAuthenticator : option string -> M string)
    (userAssertion : option string) (w : World) :
  (Js.truthy userAssertion = true ->
     Index.authenticator originalAuthenticator userAssertion w
       = originalAuthenticator userAssertion w)
  /\ (Js.truthy userAssertion = false -> Js.truthy (externalToken w) = true ->
     Index.authenticator originalAuthenticator userAssertion w
       = originalAuthenticator (externalToken w) w)
  /\ (Js.truthy userAssertion = false -> Js.truthy (externalToken w) = false ->
     Index.authenticator originalAuthenticator userAssertion w
       = originalAuthenticator None w).
Proof.
  unfold Index.authenticator. split; [|split].
  - intros ->. reflexivity.
  - intros -> Hext. run_m. rewrite Hext. reflexivity.
  - intros -> Hext. run_m. rewrite Hext. reflexivity.
Qed.

Lemma wrapper_precedence_witness :
  Index.authenticator probe (Some "A") (holding "T") = probe (Some "A") (holding "T")
  /\ Index.authenticator probe None (holding "T") = probe (Some "T") (holding "T")
  /\ Index.authenticator probe None initial = probe None initial.
Proof.
  pose proof (wrapper_precedence probe (Some "A") (holding "T")) as (H1 & _).
  pose proof (wrapper_precedence probe None (holding "T")) as (_ & H2 & _).
  pose proof (wrapper_precedence probe None initial) as (_ & _ & H3).
  split; [|split].
  - apply H1. reflexivity.
  - apply H2; reflexivity.
  - apply H3; reflexivity.
Defined.

(** *** The service credential chain *)

Lemma logged_nil (w : World) : logged [] w = w.
Proof. destruct w. unfold logged. simpl. rewrite app_nil_r. reflexivity. Qed.

Lemma logged_logged (es1 es2 : list Effect) (w : World) :
  logged es2 (logged es1 w) = logged (es1 ++ es2) w.
Proof. unfold logged. simpl. rewrite <- app_assoc. reflexivity. Qed.

Lemma chainedFrom_passed
    (idp : Auth.IdentityProvider) (before rest : list Source) (errors : bool) (w : World) :
  forallb (passed idp) before = true ->
  Auth.chainedFrom idp errors (before ++ rest) w
  = Auth.chainedFrom idp (errors || existsb (steppedOver idp) before) rest
      (logged (map GetToken before) w).
Proof.
  revert errors w. induction before as [|s before IH]; intros errors w Hpassed.
  - simpl. rewrite orb_false_r, logged_nil. reflexivity.
  - simpl in Hpassed. apply andb_prop in Hpassed as [Hs Hbefore].
    simpl. unfold bind, emit, modify. fold (logged [GetToken s] w).
    unfold passed in Hs. unfold steppedOver at 1.
    destruct (Auth.sourceToken idp s) as [[t|]|name]; simpl; [discriminate| |].
    + rewrite (IH _ _ Hbefore), logged_logged. reflexivity.
    + rewrite Hs. rewrite (IH _ _ Hbefore), logged_logged, orb_true_r. reflexivity.
Qed.

Lemma chained_nonempty
    (idp : Auth.IdentityProvider) (before : list Source) (s : Source) (after : list Source) :
  Auth.chained idp (before ++ s :: after)
  = Auth.chainedFrom idp false (before ++ s :: after).
Proof. destruct before; reflexivity. Qed.

(** A chain stops at the first source that provides a token. *)
Lemma chained_token
    (idp : Auth.IdentityProvider) (before : list Source) (s : Source) (after : list Source)
    (t : AccessToken) (w : World) :
  forallb (passed idp) before = true ->
  Auth.sourceToken idp s = Resolved (Some t) ->
  Auth.chained idp (before ++ s :: after) w
  = (Return (Some t), logged (map GetToken (before ++ [s])) w).
Proof.
  intros Hbefore Hs.
  rewrite chained_nonempty, (chainedFrom_passed _ _ _ _ _ Hbefore).
  simpl. unfold bind, emit, modify. rewrite Hs. simpl.
  rewrite map_app. unfold logged. simpl. rewrite <- app_assoc. reflexivity.
Qed.

(** A chain stops at the first error it does not step over. *)
Lemma chained_rethrows
    (idp : Auth.IdentityProvider) (before : list Source) (s : Source) (after : list Source)
    (name : string) (w : World) :
  forallb (passed idp) before = true ->
  Auth.sourceToken idp s = Rejected name ->
  Auth.unavailable name = false ->
  Auth.chained idp (before ++ s :: after) w
  = (Throw (LibraryError name), logged (map GetToken (before ++ [s])) w).
Proof.
  intros Hbefore Hs Hname.
  rewrite chained_nonempty, (chainedFrom_passed _ _ _ _ _ Hbefore).
  simpl. unfold bind, emit, modify. rewrite Hs, Hname. simpl.
  rewrite map_app. unfold logged. simpl. rewrite <- app_assoc. reflexivity.
Qed.

Lemma chained_exhausted
    (idp : Auth.IdentityProvider) (sources : list Source) (w : World) :
  sources <> [] ->
  forallb (passed idp) sources = true ->
  Auth.chained idp sources w
  = (Throw (exhausted idp sources), logged (map GetToken sources) w).
Proof.
  intros Hne Hpassed.
  assert (Auth.chained idp sources = Auth.chainedFrom idp false sources) as ->.
  { destruct sources; [contradiction | reflexivity]. }
  rewrite <- (app_nil_r sources) at 1.
  rewrite (chainedFrom_passed _ _ _ _ _ Hpassed). simpl.
  unfold exhausted. destruct (existsb _ _); reflexivity.
Qed.

(** C7, as stated, fails twice. In "env" mode a supplied tenant id adds
    no CLI identity: the authenticator holds the generic source alone,
    and a call fails without asking the CLI identity that would have
    provided a token. And a chain does not try every source in turn:
    when the CLI identity fails with an error other than the two a chain
    steps over, the call fails with that error and the generic source,
    which would have provided a token, is not asked. *)
Lemma service_chain_counterexample :
  Auth.createAuthenticator grantingIdp "env" (Some "contoso") None initial
    = (Return (Auth.FromCredential (Single DefaultAzureCredential)), initial)
  /\ Auth.call grantingIdp (Auth.FromCredential (Single DefaultAzureCredential)) None initial
     = (Throw (LibraryError "CredentialUnavailableError"),
        logged [GetToken DefaultAzureCredential] initial)
  /\ yields grantingIdp (AzureCliCredential "contoso")
     = Some {| token := "cli-token"; expiresOnTimestamp := 0 |}
  /\ Auth.createAuthenticator strictIdp "azcli" (Some "contoso") None initial
     = (Return (Auth.FromCredential
                  (ChainedTokenCredential [AzureCliCredential "contoso";
                                           DefaultAzureCredential])), initial)
  /\ Auth.call strictIdp
       (Auth.FromCredential
          (ChainedTokenCredential [AzureCliCredential "contoso"; DefaultAzureCredential]))
       None initial
     = (Throw (LibraryError "Error"), logged [GetToken (AzureCliCredential "contoso")] initial)
  /\ yields strictIdp DefaultAzureCredential
     = Some {| token := "default-token"; expiresOnTimestamp := 0 |}.
Proof. split; [|split; [|split; [|split; [|split]]]]; reflexivity. Qed.

(** C7, amended. For "azcli" and "env" the factory first builds the
    generic source and then, exactly when the type is "azcli" and the
    tenant id is a non-empty string, the CLI identity of that tenant,
    which it chains before the generic source; otherwise the generic
    source stands alone. The factory throws what a credential
    constructor throws (the CLI identity refuses an invalid tenant id)
    and returns the credential otherwise, leaving the state as it was.
    A call on a single source asks it once: it returns the token, throws
    "Failed to obtain Azure DevOps token." when the source resolves
    without one, and rethrows its rejection. A call on a chain asks the
    sources in order. It steps over a source that resolves without a
    token or rejects with CredentialUnavailableError or
    AuthenticationRequiredError, returns the token of the first source
    that provides one, and stops with the error of the first source that
    rejects otherwise; no source behind that one is asked. With every
    source stepped over the call throws. *)
Theorem service_chain
    (idp : Auth.IdentityProvider) (type : string) (tenantId : option string)
    (options : option Auth.Options) (userAssertion : option string) (w w1 : World) :
  type = "azcli" \/ type = "env" ->
  (forall name, Auth.newDefaultAzureCredential idp None = Rejected name ->
     Auth.createAuthenticator idp type tenantId options w = (Throw (LibraryError name), w))
  /\ (Auth.newDefaultAzureCredential idp None = Resolved tt ->
      type = "env" \/ Js.truthy tenantId = false ->
      Auth.createAuthenticator idp type tenantId options w
        = (Return (Auth.FromCredential (Single DefaultAzureCredential)), w))
  /\ (forall t, type = "azcli" -> tenantId = Some t -> t <> "" ->
      Auth.newDefaultAzureCredential idp None = Resolved tt ->
      (forall name, Auth.newAzureCliCredential idp t = Rejected name ->
         Auth.createAuthenticator idp type tenantId options w
           = (Throw (LibraryError name), w))
      /\ (Auth.newAzureCliCredential idp t = Resolved tt ->
          Auth.createAuthenticator idp type tenantId options w
            = (Return (Auth.FromCredential
                         (ChainedTokenCredential
                            [AzureCliCredential t; DefaultAzureCredential])), w)))
  /\ (forall s,
      Auth.call idp (Auth.FromCredential (Single s)) userAssertion w1
      = (match Auth.sourceToken idp s with
         | Resolved (Some t) => Return (token t)
         | Resolved None => Throw (Error "Failed to obtain Azure DevOps token.")
         | Rejected name => Throw (LibraryError name)
         end, logged [GetToken s] w1))
  /\ (forall before s after, forallb (passed idp) before = true ->
      (forall t, Auth.sourceToken idp s = Resolved (Some t) ->
         Auth.call idp (Auth.FromCredential (ChainedTokenCredential (before ++ s :: after)))
           userAssertion w1
         = (Return (token t), logged (map GetToken (before ++ [s])) w1))
      /\ (forall name, Auth.sourceToken idp s = Rejected name ->
          Auth.unavailable name = false ->
          Auth.call idp (Auth.FromCredential (ChainedTokenCredential (before ++ s :: after)))
            userAssertion w1
          = (Throw (LibraryError name), logged (map GetToken (before ++ [s])) w1)))
  /\ (forall sources, sources <> [] -> forallb (passed idp) sources = true ->
      Auth.call idp (Auth.FromCredential (ChainedTokenCredential sources)) userAssertion w1
      = (Throw (exhausted idp sources), logged (map GetToken sources) w1)).
Proof.
  intros Htype.
  split; [|split; [|split; [|split; [|split]]]].
  - intros name Hdefault. unfold Auth.createAuthenticator.
    destruct Htype as [-> | ->]; simpl; unfold bind; rewrite Hdefault; reflexivity.
  - intros Hdefault Halone. unfold Auth.createAuthenticator.
    destruct Htype as [-> | ->]; simpl; unfold bind; rewrite Hdefault; simpl.
    + destruct Halone as [H|H]; [discriminate|].
      destruct tenantId as [t|]; [|reflexivity].
      rewrite H. reflexivity.
    + destruct tenantId as [t|]; [|reflexivity].
      rewrite andb_false_r. reflexivity.
  - intros t -> -> Hne Hdefault. unfold Auth.createAuthenticator. simpl.
    apply String.eqb_neq in Hne. rewrite Hne. simpl.
    unfold bind. rewrite Hdefault. simpl.
    split; [intros name Hcli | intros Hcli]; rewrite Hcli; reflexivity.
  - intros s. simpl. unfold bind, emit, modify, await. fold (logged [GetToken s] w1).
    destruct (Auth.sourceToken idp s) as [[t|]|name]; reflexivity.
  - intros before s after Hbefore. split.
    + intros t Hs. simpl. unfold bind.
      rewrite (chained_token _ _ _ _ _ _ Hbefore Hs). reflexivity.
    + intros name Hs Hname. simpl. unfold bind.
      rewrite (chained_rethrows _ _ _ _ _ _ Hbefore Hs Hname). reflexivity.
  - intros sources Hne Hpassed. simpl. unfold bind.
    rewrite (chained_exhausted _ _ _ Hne Hpassed). reflexivity.
Qed.

Lemma service_chain_witness :
  Auth.createAuthenticator grantingIdp "azcli" (Some "contoso") None initial
    = (Return (Auth.FromCredential
                 (ChainedTokenCredential [AzureCliCredential "contoso";
                                          DefaultAzureCredential])), initial)
  /\ Auth.createAuthenticator strictIdp "azcli" (Some "my tenant") None initial
     = (Throw (LibraryError "Error"), initial)
  /\ Auth.call grantingIdp
       (Auth.FromCredential
          (ChainedTokenCredential [AzureCliCredential "contoso"; DefaultAzureCredential]))
       None initial
     = (Return "cli-token", logged [GetToken (AzureCliCredential "contoso")] initial)
  /\ Auth.call cancellingIdp
       (Auth.FromCredential
          (ChainedTokenCredential [AzureCliCredential "contoso"; DefaultAzureCredential]))
       None initial
     = (Throw (LibraryError "AggregateAuthenticationError"),
        logged [GetToken (AzureCliCredential "contoso"); GetToken DefaultAzureCredential]
          initial).
Proof.
  pose proof (service_chain grantingIdp "azcli" (Some "contoso") None None initial initial
                (or_introl eq_refl)) as (_ & _ & Hbuilt & _ & Hchain & _).
  pose proof (service_chain strictIdp "azcli" (Some "my tenant") None None initial initial
                (or_introl eq_refl)) as (_ & _ & Hrefused & _).
  pose proof (service_chain cancellingIdp "azcli" (Some "contoso") None None initial initial
                (or_introl eq_refl)) as (_ & _ & _ & _ & _ & Hexhausted).
  split; [|split; [|split]].
  - apply (Hbuilt "contoso" eq_refl eq_refl); [discriminate | reflexivity | reflexivity].
  - apply (Hrefused "my tenant" eq_refl eq_refl); [discriminate | reflexivity | reflexivity].
  - apply (proj1 (Hchain [] (AzureCliCredential "contoso") [DefaultAzureCredential] eq_refl)
             {| token := "cli-token"; expiresOnTimestamp := 0 |}).
    reflexivity.
  - apply (Hexhausted [AzureCliCredential "contoso"; DefaultAzureCredential]);
      [discriminate | reflexivity].
Defined.

(** *** The interactive back end *)

(** The constructor leaves the authenticator without an account. *)
Lemma newOAuthAuthenticator_no_account (tenantId : option string) (w : World) :
  accountId (snd (Auth.newOAuthAuthenticator tenantId w)) = None.
Proof. reflexivity. Qed.

(** C6, as stated, fails in its last clause: when the interactive flow
    itself is rejected (here the person cancels), [getToken] fails
    although no flow completed. *)
Lemma interactive_getToken_counterexample :
  Auth.getToken cancellingIdp commonOAuth initial
    = (Throw (LibraryError "user_cancelled"), logged [AcquireTokenInteractive] initial)
  /\ Auth.acquireTokenInteractive cancellingIdp (Auth.publicClientApp commonOAuth)
     = Rejected "user_cancelled".
Proof. split; reflexivity. Qed.

(** C6, amended. Without a cached account [getToken] runs the
    interactive flow, once, and caches the account of its result. With a
    cached account it first attempts the silent refresh with that
    account; when the refresh resolves the interactive flow is not run
    and the account is kept; when the refresh is rejected the interactive
    flow is run exactly once in that call. [getToken] fails when the
    interactive flow it runs is rejected (that rejection propagates and
    the cached account is left as it was), or when the result obtained
    carries no access token; it fails in no other case. *)
Theorem interactive_getToken
    (idp : Auth.IdentityProvider) (self : Auth.OAuthAuthenticator) (w : World) :
  let app := Auth.publicClientApp self in
  (accountId w = None ->
     forall r, Auth.acquireTokenInteractive idp app = Resolved r ->
     Auth.getToken idp self w
       = (usable r, logged [AcquireTokenInteractive] (signedIn (account r) w)))
  /\ (accountId w = None ->
     forall n, Auth.acquireTokenInteractive idp app = Rejected n ->
     Auth.getToken idp self w
       = (Throw (LibraryError n), logged [AcquireTokenInteractive] w))
  /\ (forall a r, accountId w = Some a ->
     Auth.acquireTokenSilent idp app a = Resolved r ->
     Auth.getToken idp self w = (usable r, logged [AcquireTokenSilent a] w))
  /\ (forall a m r, accountId w = Some a ->
     Auth.acquireTokenSilent idp app a = Rejected m ->
     Auth.acquireTokenInteractive idp app = Resolved r ->
     Auth.getToken idp self w
       = (usable r,
          logged [AcquireTokenSilent a; AcquireTokenInteractive] (signedIn (account r) w)))
  /\ (forall a m n, accountId w = Some a ->
     Auth.acquireTokenSilent idp app a = Rejected m ->
     Auth.acquireTokenInteractive idp app = Rejected n ->
     Auth.getToken idp self w
       = (Throw (LibraryError n),
          logged [AcquireTokenSilent a; AcquireTokenInteractive] w))
  /\ (forall e, fst (Auth.getToken idp self w) = Throw e ->
     (e = Error "Failed to obtain Azure DevOps OAuth token."
      /\ exists r, accessToken r = ""
                   /\ (Auth.acquireTokenInteractive idp app = Resolved r
                       \/ exists a, accountId w = Some a
                                    /\ Auth.acquireTokenSilent idp app a = Resolved r))
     \/ exists n, e = LibraryError n
                  /\ Auth.acquireTokenInteractive idp app = Rejected n).
Proof.
  intros app. subst app.
  destruct w as [acct ext reg objs tr].
  unfold Auth.getToken, usable, logged, signedIn. run_m.
  split; [|split; [|split; [|split; [|split]]]].
  - intros -> r ->. simpl.
    destruct (String.eqb (accessToken r) ""); reflexivity.
  - intros -> n ->. reflexivity.
  - intros a r -> ->. simpl.
    destruct (String.eqb (accessToken r) ""); reflexivity.
  - intros a m r -> -> ->. simpl. rewrite <- app_assoc.
    destruct (String.eqb (accessToken r) ""); reflexivity.
  - intros a m n -> -> ->. simpl. rewrite <- app_assoc. reflexivity.
  - intros e.
    destruct acct as [a|].
    + destruct (Auth.acquireTokenSilent idp (Auth.publicClientApp self) a) as [r|m] eqn:Hs;
        simpl.
      * destruct (String.eqb (accessToken r) "") eqn:Hr; simpl; intros [= <-].
        apply String.eqb_eq in Hr. left. split; [reflexivity|]. exists r. eauto.
      * destruct (Auth.acquireTokenInteractive idp (Auth.publicClientApp self)) as [r|n];
          simpl.
        -- destruct (String.eqb (accessToken r) "") eqn:Hr; simpl; intros [= <-].
           apply String.eqb_eq in Hr. left. split; [reflexivity|]. exists r. eauto.
        -- intros [= <-]. right. eauto.
    + destruct (Auth.acquireTokenInteractive idp (Auth.publicClientApp self)) as [r|n];
        simpl.
      * destruct (String.eqb (accessToken r) "") eqn:Hr; simpl; intros [= <-].
        apply String.eqb_eq in Hr. left. split; [reflexivity|]. exists r. eauto.
      * intros [= <-]. right. eauto.
Qed.

Lemma interactive_getToken_witness :
  Auth.getToken grantingIdp commonOAuth initial
    = (Return "interactive-token",
       logged [AcquireTokenInteractive] (signedIn (Some alice) initial))
  /\ Auth.getToken grantingIdp commonOAuth (signedIn (Some alice) initial)
     = (Return "silent-token", logged [AcquireTokenSilent alice] (signedIn (Some alice) initial))
  /\ Auth.getToken cancellingIdp commonOAuth (signedIn (Some alice) initial)
     = (Throw (LibraryError "user_cancelled"),
        logged [AcquireTokenSilent alice; AcquireTokenInteractive]
          (signedIn (Some alice) initial)).
Proof.
  pose proof (interactive_getToken grantingIdp commonOAuth initial) as (H1 & _).
  pose proof (interactive_getToken grantingIdp commonOAuth (signedIn (Some alice) initial))
    as (_ & _ & H3 & _).
  pose proof (interactive_getToken cancellingIdp commonOAuth (signedIn (Some alice) initial))
    as (_ & _ & _ & _ & H5 & _).
  split; [|split].
  - apply (H1 eq_refl _ eq_refl).
  - apply (H3 alice _ eq_refl eq_refl).
  - apply (H5 alice _ _ eq_refl eq_refl eq_refl).
Defined.

(** *** Notifications of the SDK *)

Section Across.

Context (R : World -> World -> Prop).
Hypothesis R_refl : forall w, R w w.
Hypothesis R_trans : forall w1 w2 w3, R w1 w2 -> R w2 w3 -> R w1 w3.

Lemma across_ret {A} (a : A) : across R (ret a).
Proof. intros w. apply R_refl. Qed.

Lemma across_bind {A B} (c : M A) (k : A -> M B) :
  across R c -> (forall a, across R (k a)) -> across R (bind c k).
Proof.
  intros Hc Hk w. unfold bind. specialize (Hc w).
  destruct (c w) as [[a|e] w']; simpl in *.
  - eapply R_trans; [exact Hc | apply Hk].
  - exact Hc.
Qed.

Lemma deliverAll_across (transport : Handle) (ns : list Index.Notification) :
  (forall n, In n ns -> across R (Index.deliver transport n)) ->
  across R (Index.deliverAll transport ns).
Proof.
  induction ns as [|n rest IH]; intros Hn; simpl.
  - apply across_ret.
  - apply across_bind.
    + apply Hn. left. reflexivity.
    + intros _. apply IH. intros n' Hin. apply Hn. right. exact Hin.
Qed.

End Across.

Lemma deliver_returns (transport : Handle) (n : Index.Notification) (w : World) :
  fst (Index.deliver transport n w) = Return tt.
Proof.
  destruct n as [u|]; unfold Index.deliver, Index.onclose, Index.onsessioninitialized; run_m.
  - destruct (objects w !! transport) as [[[sid|]]|]; reflexivity.
  - destruct (objects w !! transport) as [[[sid|]]|]; try reflexivity.
    simpl. destruct (negb _); reflexivity.
Qed.

Lemma deliverAll_returns (transport : Handle) (ns : list Index.Notification) (w : World) :
  fst (Index.deliverAll transport ns w) = Return tt.
Proof.
  revert w. induction ns as [|n rest IH]; intros w; simpl; [reflexivity|].
  unfold bind. pose proof (deliver_returns transport n w) as Hn.
  destruct (Index.deliver transport n w) as [r w']. simpl in Hn. subst r. apply IH.
Qed.

Lemma quiet_refl (w : World) : quiet w w.
Proof.
  repeat split; try reflexivity. exists []. rewrite app_nil_r. split; [reflexivity | constructor].
Qed.

Lemma quiet_trans (w1 w2 w3 : World) : quiet w1 w2 -> quiet w2 w3 -> quiet w1 w3.
Proof.
  intros (Ha & He & Hl & es & Ht & Hr) (Ha' & He' & Hl' & es' & Ht' & Hr').
  repeat split; try congruence.
  exists (es ++ es'). split.
  - rewrite Ht', Ht, <- app_assoc. reflexivity.
  - apply Forall_app. split; assumption.
Qed.

Lemma deliver_quiet (transport : Handle) (n : Index.Notification) :
  across quiet (Index.deliver transport n).
Proof.
  intros w.
  destruct n as [u|]; unfold Index.deliver, Index.onclose, Index.onsessioninitialized; run_m.
  - destruct (objects w !! transport) as [[[sid|]]|]; simpl; try apply quiet_refl.
    repeat split; simpl.
    + apply length_insert.
    + eexists. split; [reflexivity|]. repeat constructor.
  - destruct (objects w !! transport) as [[[sid|]]|]; simpl; try apply quiet_refl.
    destruct (negb _); simpl; try apply quiet_refl.
    repeat split; simpl.
    eexists. split; [reflexivity|]. repeat constructor.
Qed.

Lemma deliverAll_quiet (transport : Handle) (ns : list Index.Notification) :
  across quiet (Index.deliverAll transport ns).
Proof.
  apply deliverAll_across; [apply quiet_refl | apply quiet_trans |].
  intros n _. apply deliver_quiet.
Qed.

(** *** The POST handler *)

Lemma handleRequest_served (sdk : Index.Sdk) (transport : Handle) (w : World) :
  Index.handleRequest sdk transport w
  = (match Index.handled sdk with
     | Resolved _ => Return tt
     | Rejected name => Throw (LibraryError name)
     end, served sdk transport w).
Proof.
  unfold Index.handleRequest, served, bind, emit, modify.
  fold (logged [HandleRequest transport] w).
  pose proof (deliverAll_returns transport (Index.notifications sdk)
                (logged [HandleRequest transport] w)) as Hr.
  destruct (Index.deliverAll _ _ _) as [r w']. simpl in *. subst r.
  unfold await. destruct (Index.handled sdk) as [[]|name]; reflexivity.
Qed.

Local Arguments Index.handleRequest : simpl never.

(** The POST handler, path by path. *)
Lemma post_paths (mode : string) (sdk : Index.Sdk) (req : Index.Request) (w : World) :
  Index.post mode sdk req w
  = if negb (admitted mode req) then (Return Index.userTokenRequired, w)
    else
      let w0 := identified mode req w in
      match Index.registered (transports w) (Index.mcpSessionId req) with
      | Some (Index.Own transport) =>
          (settledReply sdk transport, released mode (served sdk transport w0))
      | Some (Index.Inherited _) => (Throw Index.notAFunction, released mode w0)
      | None =>
          if negb (Js.truthy (Index.mcpSessionId req))
             && Index.isInitializeBody (Index.body req)
          then
            let transport := length (objects w) in
            let w1 := logged [NewTransport transport; Connect transport] (allocated w0) in
            match Index.connected sdk with
            | Resolved _ =>
                (settledReply sdk transport, released mode (served sdk transport w1))
            | Rejected name => (Throw (LibraryError name), w1)
            end
          else (Return Index.noValidSession, w0)
      end.
Proof.
  destruct w as [acct ext reg objs tr].
  unfold Index.post, admitted, identified, released, settledReply, bearer,
    Index.newTransport, logged, allocated, assigned.
  assert (Hcases : String.eqb mode "external" = true
                   \/ (String.eqb mode "external" = false /\ String.eqb mode "obo" = true)
                   \/ (String.eqb mode "external" = false /\ String.eqb mode "obo" = false)).
  { destruct (String.eqb mode "external"), (String.eqb mode "obo"); auto. }
  assert (Hne : String.eqb mode "external" = true -> String.eqb mode "obo" = false).
  { intros ->%String.eqb_eq. reflexivity. }
  destruct Hcases as [He | [[He Ho] | [He Ho]]];
    [pose proof (Hne He) as Ho | | ]; rewrite ?He, ?Ho; clear Hne; run_m;
    try (destruct (Js.truthy (Js.secondWord (Index.authorization req))); simpl;
         [|reflexivity]);
    (destruct (Index.registered reg (Index.mcpSessionId req)) as [[transport|name]|];
     [| reflexivity
      | destruct (negb (Js.truthy (Index.mcpSessionId req))
                  && Index.isInitializeBody (Index.body req)); [|reflexivity];
        destruct (Index.connected sdk) as [[]|name]; simpl;
        rewrite <- ?app_assoc; simpl; [|reflexivity] ]);
    rewrite handleRequest_served; simpl;
    destruct (Index.handled sdk) as [[]|name]; try reflexivity;
    match goal with |- context [served ?s ?t ?w0] => destruct (served s t w0) end;
    reflexivity.
Qed.

Lemma requestsHandled_registry (es : list Effect) :
  Forall onRegistry es -> requestsHandled es = [].
Proof.
  induction 1 as [|e es He _ IH]; [reflexivity|].
  unfold requestsHandled in *. destruct e; simpl in *; try contradiction; exact IH.
Qed.

Lemma transportsCreated_registry (es : list Effect) :
  Forall onRegistry es -> transportsCreated es = [].
Proof.
  induction 1 as [|e es He _ IH]; [reflexivity|].
  unfold transportsCreated in *. destruct e; simpl in *; try contradiction; exact IH.
Qed.

Lemma served_quiet (sdk : Index.Sdk) (transport : Handle) (w : World) :
  quiet (logged [HandleRequest transport] w) (served sdk transport w).
Proof. apply deliverAll_quiet. Qed.

Lemma served_externalToken (sdk : Index.Sdk) (transport : Handle) (w : World) :
  externalToken (served sdk transport w) = externalToken w.
Proof. destruct (served_quiet sdk transport w) as (_ & He & _). exact He. Qed.

Lemma served_requestsHandled (sdk : Index.Sdk) (transport : Handle) (w : World) :
  requestsHandled (trace (served sdk transport w))
  = requestsHandled (trace w) ++ [transport].
Proof.
  destruct (served_quiet sdk transport w) as (_ & _ & _ & es & Ht & Hes).
  rewrite Ht. simpl. unfold requestsHandled. rewrite !omap_app. simpl.
  fold (requestsHandled es). rewrite (requestsHandled_registry es Hes).
  rewrite app_nil_r. reflexivity.
Qed.

Lemma served_transportsCreated (sdk : Index.Sdk) (transport : Handle) (w : World) :
  transportsCreated (trace (served sdk transport w)) = transportsCreated (trace w).
Proof.
  destruct (served_quiet sdk transport w) as (_ & _ & _ & es & Ht & Hes).
  rewrite Ht. simpl. unfold transportsCreated. rewrite !omap_app. simpl.
  fold (transportsCreated es). rewrite (transportsCreated_registry es Hes).
  rewrite !app_nil_r. reflexivity.
Qed.

Lemma released_trace (mode : string) (w : World) : trace (released mode w) = trace w.
Proof. unfold released. destruct (String.eqb mode "obo"); reflexivity. Qed.

Lemma released_transports (mode : string) (w : World) :
  transports (released mode w) = transports w.
Proof. unfold released. destruct (String.eqb mode "obo"); reflexivity. Qed.

Lemma identified_trace (mode : string) (req : Index.Request) (w : World) :
  trace (identified mode req w) = trace w.
Proof. unfold identified. destruct (_ || _); reflexivity. Qed.

Lemma identified_transports (mode : string) (req : Index.Request) (w : World) :
  transports (identified mode req w) = transports w.
Proof. unfold identified. destruct (_ || _); reflexivity. Qed.

Lemma identified_objects (mode : string) (req : Index.Request) (w : World) :
  objects (identified mode req w) = objects w.
Proof. unfold identified. destruct (_ || _); reflexivity. Qed.

Lemma registered_Some (registry : gmap string Handle) (sid : string) (h : Handle) :
  sid <> "" -> registry !! sid = Some h ->
  Index.registered registry (Some sid) = Some (Index.Own h).
Proof.
  intros Hne Hl. unfold Index.registered. rewrite (truthy_Some_ne sid Hne), Hl. reflexivity.
Qed.

Lemma registered_unknown (registry : gmap string Handle) (sid : string) :
  registry !! sid = None -> Index.inherited sid = false ->
  Index.registered registry (Some sid) = None.
Proof.
  intros Hl Hi. unfold Index.registered. rewrite Hl, Hi. destruct (Js.truthy _); reflexivity.
Qed.

Lemma inherited_nonempty (sid : string) : Index.inherited sid = true -> sid <> "".
Proof. intros Hi ->. discriminate. Qed.

Lemma registered_inherited (registry : gmap string Handle) (sid : string) :
  registry !! sid = None -> Index.inherited sid = true ->
  Index.registered registry (Some sid) = Some (Index.Inherited sid).
Proof.
  intros Hl Hi. unfold Index.registered.
  rewrite (truthy_Some_ne sid (inherited_nonempty sid Hi)), Hl, Hi. reflexivity.
Qed.

Lemma append_length (a b : string) :
  String.length (a ++ b)%string = String.length a + String.length b.
Proof. induction a as [|c a IH]; simpl; [reflexivity|]. rewrite IH. reflexivity. Qed.

Lemma hex_length (digits : nat) (n : N) : String.length (Index.hex digits n) = digits.
Proof.
  revert n. induction digits as [|d IH]; intros n; simpl; [reflexivity|].
  rewrite append_length, IH. simpl. apply Nat.add_1_r.
Qed.

Lemma uuidString_length (u : Index.Uuid) : String.length (Index.uuidString u) = 36.
Proof.
  unfold Index.uuidString.
  repeat (rewrite append_length || rewrite hex_length || simpl String.length).
  reflexivity.
Qed.

Lemma inherited_length (name : string) :
  Index.inherited name = true -> String.length name <= 20.
Proof.
  unfold Index.inherited, Index.objectPrototypeNames. simpl.
  rewrite !orb_true_iff.
  intros H. repeat destruct H as [H|H]; try discriminate;
    apply String.eqb_eq in H; subst name; simpl; lia.
Qed.

(** An id made by [crypto.randomUUID()] is no name that objects
    inherit. *)
Lemma uuidString_own (u : Index.Uuid) : Index.inherited (Index.uuidString u) = false.
Proof.
  destruct (Index.inherited (Index.uuidString u)) eqn:Hi; [|reflexivity].
  apply inherited_length in Hi. rewrite uuidString_length in Hi. lia.
Qed.

Lemma registered_falsy (registry : gmap string Handle) (sessionId : option string) :
  Js.truthy sessionId = false -> Index.registered registry sessionId = None.
Proof.
  intros Hf. unfold Index.registered. destruct sessionId; [|reflexivity].
  rewrite Hf. reflexivity.
Qed.

(** C9. In "obo" mode a POST whose Authorization header carries no
    bearer value is answered with status 400 and a payload that is not
    the -32000 protocol error, and nothing else happens: the state of the
    process, registry included, is what it was, whatever the body is. *)
Theorem obo_requires_bearer (sdk : Index.Sdk) (req : Index.Request) (w : World) :
  Js.truthy (bearer req) = false ->
  Index.post "obo" sdk req w = (Return Index.userTokenRequired, w)
  /\ Index.userTokenRequired <> Index.noValidSession
  /\ exists payload, Index.userTokenRequired = Index.JsonReply 400 payload.
Proof.
  intros Hb. split; [|split].
  - rewrite post_paths. unfold admitted. rewrite Hb. reflexivity.
  - discriminate.
  - eexists. reflexivity.
Qed.

Lemma obo_requires_bearer_witness :
  Index.post "obo" initializingSdk
    {| Index.mcpSessionId := None;
       Index.authorization := None;
       Index.body := Some initializeBody |} oneSession
  = (Return Index.userTokenRequired, oneSession).
Proof.
  apply (obo_requires_bearer initializingSdk
           {| Index.mcpSessionId := None;
              Index.authorization := None;
              Index.body := Some initializeBody |} oneSession).
  reflexivity.
Defined.

Lemma served_registers (sdk : Index.Sdk) (transport : Handle) (u : Index.Uuid) (w : World) :
  Index.notifications sdk = [Index.SessionInitialized u] ->
  objects w !! transport = Some {| sessionId := None |} ->
  transports (served sdk transport w) = <[Index.uuidString u := transport]> (transports w).
Proof.
  intros Hn Hobj. unfold served. rewrite Hn. simpl.
  unfold bind, Index.deliver, gets. simpl. rewrite Hobj.
  unfold Index.onsessioninitialized. run_m. reflexivity.
Qed.

(** Every frame falls under one of the three routes of the handler, or
    names a member of [Object.prototype] that is no session. *)
Remark routing_cases (req : Index.Request) (w : World) :
  (exists sid h, Index.mcpSessionId req = Some sid /\ sid <> ""
                 /\ transports w !! sid = Some h)
  \/ (Js.truthy (Index.mcpSessionId req) = false
      /\ Index.isInitializeBody (Index.body req) = true)
  \/ ((exists sid, Index.mcpSessionId req = Some sid /\ sid <> ""
                   /\ transports w !! sid = None /\ Index.inherited sid = false)
      \/ (Js.truthy (Index.mcpSessionId req) = false
          /\ Index.isInitializeBody (Index.body req) = false))
  \/ (exists sid, Index.mcpSessionId req = Some sid
                  /\ transports w !! sid = None /\ Index.inherited sid = true).
Proof.
  destruct (Js.truthy (Index.mcpSessionId req)) eqn:Hsid.
  - apply truthy_true in Hsid as (sid & Hsid & Hne).
    destruct (transports w !! sid) as [h|] eqn:Hl.
    + left. eauto.
    + destruct (Index.inherited sid) eqn:Hi.
      * right. right. right. eauto.
      * right. right. left. left. eauto 6.
  - destruct (Index.isInitializeBody (Index.body req)); auto 8.
Qed.

(** C3, as stated, fails: in "obo" mode a frame that names a registered
    session but carries no bearer value is answered by the identity
    step and reaches no connection; and a frame whose session header is
    present but empty, with an initialize body, establishes a session
    instead of being rejected. *)
Lemma post_routing_counterexample :
  Index.post "obo" quietSdk
    {| Index.mcpSessionId := Some "s1";
       Index.authorization := None;
       Index.body := Some toolCallBody |} oneSession
  = (Return Index.userTokenRequired, oneSession)
  /\ Index.post "interactive" quietSdk
       {| Index.mcpSessionId := Some "";
          Index.authorization := None;
          Index.body := Some initializeBody |} initial
     = (Return (Index.TransportReply 0),
        mkWorld None None ∅ [{| sessionId := None |}]
          [NewTransport 0; Connect 0; HandleRequest 0]).
Proof. split; reflexivity. Qed.

(** C3, amended. For a POST frame that passes the identity step (the
    mode is not "obo", or the frame carries a bearer value):
    - if the session header is non-empty and names a registered session,
      the frame is handed to that session's connection and to no other,
      whatever the body is, and no connection is created;
    - if the session header is absent or empty and the body is an
      initialize call, a new connection is created and connected, the
      frame is handed to it, and the id the SDK generates for it is
      entered in the registry;
    - otherwise, the header being no name that every object inherits (a
      non-empty id that is not registered, or no id and a body that is
      not an initialize call), the answer is status 400 with error code
      -32000 and a null id, no connection is handed the frame and none is
      created, and the registry is unchanged. *)
Theorem post_routing (mode : string) (sdk : Index.Sdk) (req : Index.Request) (w : World) :
  admitted mode req = true ->
  let reply := fst (Index.post mode sdk req w) in
  let w' := snd (Index.post mode sdk req w) in
  (forall sid h, Index.mcpSessionId req = Some sid -> sid <> "" ->
     transports w !! sid = Some h ->
     reply = settledReply sdk h
     /\ requestsHandled (trace w') = requestsHandled (trace w) ++ [h]
     /\ transportsCreated (trace w') = transportsCreated (trace w))
  /\ (Js.truthy (Index.mcpSessionId req) = false ->
      Index.isInitializeBody (Index.body req) = true ->
      let h := length (objects w) in
      transportsCreated (trace w') = transportsCreated (trace w) ++ [h]
      /\ (Index.connected sdk = Resolved tt ->
          reply = settledReply sdk h
          /\ requestsHandled (trace w') = requestsHandled (trace w) ++ [h]
          /\ (forall u, Index.notifications sdk = [Index.SessionInitialized u] ->
              transports w' = <[Index.uuidString u := h]> (transports w))))
  /\ ((exists sid, Index.mcpSessionId req = Some sid /\ sid <> ""
                   /\ transports w !! sid = None /\ Index.inherited sid = false)
      \/ (Js.truthy (Index.mcpSessionId req) = false
          /\ Index.isInitializeBody (Index.body req) = false) ->
      reply = Return Index.noValidSession
      /\ requestsHandled (trace w') = requestsHandled (trace w)
      /\ transportsCreated (trace w') = transportsCreated (trace w)
      /\ transports w' = transports w
      /\ objects w' = objects w)
  /\ (exists fields error,
      Index.noValidSession = Index.JsonReply 400 (Js.JObj fields)
      /\ Js.prop "id" fields = Some Js.JNull
      /\ Js.prop "error" fields = Some (Js.JObj error)
      /\ Js.prop "code" error = Some (Js.JNum (-32000))).
Proof.
  intros Hadm reply w'. subst reply w'. rewrite post_paths, Hadm. simpl.
  split; [|split; [|split]].
  - intros sid h Hsid Hne Hreg.
    rewrite Hsid, (registered_Some _ _ _ Hne Hreg). simpl.
    rewrite released_trace, served_requestsHandled, served_transportsCreated,
      identified_trace.
    auto.
  - intros Hfalsy Hinit.
    rewrite (registered_falsy _ _ Hfalsy), Hfalsy, Hinit. simpl.
    assert (Hcreated :
      transportsCreated
        (trace (logged [NewTransport (length (objects w)); Connect (length (objects w))]
                  (allocated (identified mode req w))))
      = transportsCreated (trace w) ++ [length (objects w)]).
    { simpl. rewrite identified_trace. unfold transportsCreated.
      rewrite omap_app. reflexivity. }
    destruct (Index.connected sdk) as [[]|name]; simpl.
    + rewrite released_trace, served_transportsCreated. split; [exact Hcreated|].
      intros _. split; [reflexivity|]. split.
      * rewrite served_requestsHandled. simpl. rewrite identified_trace.
        unfold requestsHandled. rewrite omap_app. simpl. rewrite app_nil_r. reflexivity.
      * intros u Hu. rewrite released_transports.
        rewrite (served_registers sdk _ u _ Hu).
        -- simpl. rewrite identified_transports. reflexivity.
        -- simpl. rewrite identified_objects. apply list_lookup_middle. reflexivity.
    + split; [exact Hcreated|]. intros [=].
  - intros Hcase.
    assert (Hpath : Index.registered (transports w) (Index.mcpSessionId req) = None
                    /\ negb (Js.truthy (Index.mcpSessionId req))
                       && Index.isInitializeBody (Index.body req) = false).
    { destruct Hcase as [(sid & Hsid & Hne & Hnone & Hown) | (Hfalsy & Hinit)].
      - rewrite Hsid, (registered_unknown _ _ Hnone Hown).
        simpl. apply String.eqb_neq in Hne. rewrite Hne. auto.
      - rewrite (registered_falsy _ _ Hfalsy), Hinit. split; [reflexivity|].
        apply andb_false_r. }
    destruct Hpath as [-> ->]. simpl.
    rewrite identified_trace, identified_transports, identified_objects. auto.
  - eexists _, _. repeat split.
Qed.

Lemma post_routing_witness :
  fst (Index.post "obo" quietSdk
         {| Index.mcpSessionId := Some "s1";
            Index.authorization := Some "Bearer U";
            Index.body := Some toolCallBody |} oneSession)
    = Return (Index.TransportReply 0)
  /\ transports
       (snd (Index.post "external" initializingSdk
               {| Index.mcpSessionId := None;
                  Index.authorization := Some "Bearer T";
                  Index.body := Some initializeBody |} oneSession))
     = <[sampleId := 1]> (transports oneSession)
  /\ fst (Index.post "interactive" quietSdk
            {| Index.mcpSessionId := Some "s9";
               Index.authorization := None;
               Index.body := Some initializeBody |} oneSession)
     = Return Index.noValidSession.
Proof.
  split; [|split].
  - pose proof (post_routing "obo" quietSdk
           {| Index.mcpSessionId := Some "s1";
              Index.authorization := Some "Bearer U";
              Index.body := Some toolCallBody |} oneSession eq_refl) as (H & _).
    apply (H "s1" 0 eq_refl ltac:(discriminate) eq_refl).
  - pose proof (post_routing "external" initializingSdk
           {| Index.mcpSessionId := None;
              Index.authorization := Some "Bearer T";
              Index.body := Some initializeBody |} oneSession eq_refl) as (_ & H & _).
    destruct (H eq_refl eq_refl) as (_ & H').
    destruct (H' eq_refl) as (_ & _ & H'').
    apply (H'' sampleUuid eq_refl).
  - pose proof (post_routing "interactive" quietSdk
           {| Index.mcpSessionId := Some "s9";
              Index.authorization := None;
              Index.body := Some initializeBody |} oneSession eq_refl) as (_ & _ & H & _).
    apply H. left. exists "s9". split; [reflexivity|]. split; [discriminate|].
    split; reflexivity.
Defined.

(** A frame whose session header is the name of a member that every
    object inherits from [Object.prototype], such as "constructor", and
    that names no session, is not answered by the handler: the lookup
    finds the inherited member, and calling [handleRequest] on it throws.
    In "obo" mode the [finally] block has cleared the token by then. *)
Remark post_inherited_name
    (mode : string) (sdk : Index.Sdk) (req : Index.Request) (w : World) (sid : string) :
  admitted mode req = true ->
  Index.mcpSessionId req = Some sid ->
  transports w !! sid = None ->
  Index.inherited sid = true ->
  Index.post mode sdk req w
  = (Throw Index.notAFunction, released mode (identified mode req w)).
Proof.
  intros Hadm Hsid Hnone Hi.
  rewrite post_paths, Hadm, Hsid, (registered_inherited _ _ Hnone Hi). reflexivity.
Qed.

(** *** The transient external token *)

(** C1, as stated, fails: in "external" mode the token of a request is
    still in [externalToken] after the request has been answered. *)
Lemma token_lifetime_counterexample :
  Index.post "external" quietSdk
    {| Index.mcpSessionId := Some "s1";
       Index.authorization := Some "Bearer T";
       Index.body := Some toolCallBody |} oneSession
  = (Return (Index.TransportReply 0), logged [HandleRequest 0] (assigned (Some "T") oneSession))
  /\ externalToken (logged [HandleRequest 0] (assigned (Some "T") oneSession)) = Some "T".
Proof. split; reflexivity. Qed.

(** C1, amended. In "obo" mode, a POST that carries a bearer value and
    is handed to a connection (a registered session, or a new one whose
    connect resolves) leaves [externalToken] empty, whether the handling
    resolves or throws; a POST without a bearer value leaves the state
    as it was. In "external" mode the token is not cleared after the
    call: every POST overwrites [externalToken] with its own bearer
    value, so that after a POST that supplies none the field is empty.
    In every other mode a POST leaves [externalToken] as it was. *)
Theorem token_lifetime (mode : string) (sdk : Index.Sdk) (req : Index.Request) (w : World) :
  let w' := snd (Index.post mode sdk req w) in
  (mode = "obo" -> Js.truthy (bearer req) = true ->
     is_Some (Index.registered (transports w) (Index.mcpSessionId req))
     \/ (Js.truthy (Index.mcpSessionId req) = false
         /\ Index.isInitializeBody (Index.body req) = true
         /\ Index.connected sdk = Resolved tt) ->
     externalToken w' = None)
  /\ (mode = "obo" -> Js.truthy (bearer req) = false -> w' = w)
  /\ (mode = "external" -> externalToken w' = bearer req)
  /\ (mode <> "external" -> mode <> "obo" -> externalToken w' = externalToken w).
Proof.
  intros w'. subst w'. rewrite post_paths.
  split; [|split; [|split]].
  - intros -> Hb Hrouted. unfold admitted. rewrite Hb. simpl.
    destruct Hrouted as [[found Hfound] | (Hfalsy & Hinit & Hconn)].
    + rewrite Hfound. destruct found; reflexivity.
    + rewrite (registered_falsy _ _ Hfalsy), Hfalsy, Hinit, Hconn. reflexivity.
  - intros -> Hb. unfold admitted. rewrite Hb. reflexivity.
  - intros ->. unfold admitted, identified, released. simpl.
    destruct (Index.registered _ _) as [[h|name]|]; simpl.
    + rewrite served_externalToken. reflexivity.
    + reflexivity.
    + destruct (_ && _); [|reflexivity].
      destruct (Index.connected sdk) as [[]|name]; simpl; [|reflexivity].
      rewrite served_externalToken. reflexivity.
  - intros He Ho. apply String.eqb_neq in He, Ho.
    unfold admitted, identified, released. rewrite He, Ho. simpl.
    destruct (Index.registered _ _) as [[h|name]|]; simpl.
    + rewrite served_externalToken. reflexivity.
    + reflexivity.
    + destruct (_ && _); [|reflexivity].
      destruct (Index.connected sdk) as [[]|name]; simpl; [|reflexivity].
      rewrite served_externalToken. reflexivity.
Qed.

Lemma token_lifetime_witness :
  externalToken
    (snd (Index.post "obo" failingSdk
            {| Index.mcpSessionId := Some "s1";
               Index.authorization := Some "Bearer U";
               Index.body := Some toolCallBody |} oneSession)) = None
  /\ externalToken
       (snd (Index.post "external" quietSdk
               {| Index.mcpSessionId := Some "s1";
                  Index.authorization := None;
                  Index.body := Some toolCallBody |} (holding "T"))) = None
  /\ externalToken
       (snd (Index.post "azcli" quietSdk
               {| Index.mcpSessionId := Some "s1";
                  Index.authorization := Some "Bearer T";
                  Index.body := Some toolCallBody |} oneSession)) = None.
Proof.
  split; [|split].
  - pose proof (token_lifetime "obo" failingSdk
           {| Index.mcpSessionId := Some "s1";
              Index.authorization := Some "Bearer U";
              Index.body := Some toolCallBody |} oneSession) as (H & _).
    apply H; [reflexivity | reflexivity |]. left. exists (Index.Own 0). reflexivity.
  - pose proof (token_lifetime "external" quietSdk
           {| Index.mcpSessionId := Some "s1";
              Index.authorization := None;
              Index.body := Some toolCallBody |} (holding "T")) as (_ & _ & H & _).
    apply (H eq_refl).
  - pose proof (token_lifetime "azcli" quietSdk
           {| Index.mcpSessionId := Some "s1";
              Index.authorization := Some "Bearer T";
              Index.body := Some toolCallBody |} oneSession) as (_ & _ & _ & H).
    apply H; discriminate.
Defined.

(** X17. The paths of "obo" mode that leave the handler before its
    [try ... finally]: a frame with a bearer value that is rejected for
    its session id (the lookup in [transports] finds nothing), or whose
    [server.connect] is rejected, leaves the bearer value in
    [externalToken]. *)
Remark obo_early_exit_keeps_token (sdk : Index.Sdk) (req : Index.Request) (w : World) :
  Js.truthy (bearer req) = true ->
  Index.registered (transports w) (Index.mcpSessionId req) = None ->
  (negb (Js.truthy (Index.mcpSessionId req)) && Index.isInitializeBody (Index.body req)
     = false
   \/ exists name, Index.connected sdk = Rejected name) ->
  externalToken (snd (Index.post "obo" sdk req w)) = bearer req.
Proof.
  intros Hb Hreg Hexit. rewrite post_paths. unfold admitted. rewrite Hb, Hreg. simpl.
  destruct (_ && _).
  - destruct Hexit as [? | [name ->]]; [discriminate | reflexivity].
  - reflexivity.
Qed.

(** *** The session registry *)

Lemma handleSessionRequest_paths (sdk : Index.Sdk) (req : Index.Request) (w : World) :
  Index.handleSessionRequest sdk req w
  = match Index.registered (transports w) (Index.mcpSessionId req) with
    | Some (Index.Own transport) => (settledReply sdk transport, served sdk transport w)
    | Some (Index.Inherited _) => (Throw Index.notAFunction, w)
    | None => (Return (Index.TextReply 400 "Invalid or missing session ID"), w)
    end.
Proof.
  unfold Index.handleSessionRequest, settledReply. run_m.
  destruct (Index.registered _ _) as [[transport|name]|]; [|reflexivity|reflexivity].
  rewrite handleRequest_served.
  destruct (Index.handled sdk) as [[]|name]; reflexivity.
Qed.

Section Steps.

Context (R : World -> World -> Prop).
Hypothesis R_refl : forall w, R w w.
Hypothesis R_trans : forall w1 w2 w3, R w1 w2 -> R w2 w3 -> R w1 w3.
Hypothesis R_assigned : forall t w, R w (assigned t w).
Hypothesis R_handle : forall h w, R w (logged [HandleRequest h] w).
Hypothesis R_create : forall h w, R w (logged [NewTransport h; Connect h] w).
Hypothesis R_allocated : forall w, R w (allocated w).

Lemma served_across (sdk : Index.Sdk) (transport : Handle) (w : World) :
  (forall n, In n (Index.notifications sdk) -> across R (Index.deliver transport n)) ->
  R w (served sdk transport w).
Proof.
  intros Hn. eapply R_trans; [apply R_handle|].
  unfold served. apply (deliverAll_across R R_refl R_trans); exact Hn.
Qed.

Lemma identified_across (mode : string) (req : Index.Request) (w : World) :
  R w (identified mode req w).
Proof. unfold identified. destruct (_ || _); [apply R_assigned | apply R_refl]. Qed.

Lemma released_across (mode : string) (w : World) : R w (released mode w).
Proof. unfold released. destruct (String.eqb _ _); [apply R_assigned | apply R_refl]. Qed.

(** What holds across the basic moves and across the notifications of a
    step holds across the step. *)
Lemma step_across (mode : string) (s : Index.Step) (w : World) :
  (forall h n, In n (signals s) -> across R (Index.deliver h n)) ->
  R w (Index.step mode s w).
Proof.
  intros Hn. destruct s as [sdk req | sdk req | h n]; simpl in *.
  - rewrite post_paths.
    destruct (negb (admitted mode req)); [apply R_refl|]. simpl.
    pose proof (identified_across mode req w) as H0.
    destruct (Index.registered _ _) as [[transport|name]|]; simpl.
    + eapply R_trans; [exact H0|]. eapply R_trans; [|apply released_across].
      apply served_across. intros n. apply Hn.
    + eapply R_trans; [exact H0 | apply released_across].
    + destruct (_ && _); [|exact H0].
      assert (H1 : R w (logged [NewTransport (length (objects w)); Connect (length (objects w))]
                          (allocated (identified mode req w)))).
      { eapply R_trans; [exact H0|]. eapply R_trans; [apply R_allocated | apply R_create]. }
      destruct (Index.connected sdk) as [[]|name]; simpl; [|exact H1].
      eapply R_trans; [exact H1|]. eapply R_trans; [|apply released_across].
      apply served_across. intros n. apply Hn.
  - rewrite handleSessionRequest_paths.
    destruct (Index.registered _ _) as [[transport|name]|]; simpl;
      [|apply R_refl|apply R_refl].
    apply served_across. intros n. apply Hn.
  - apply Hn. left. reflexivity.
Qed.

End Steps.

Lemma wellFormed_frame (w w' : World) :
  transports w' = transports w -> objects w' = objects w ->
  wellFormed w -> wellFormed w'.
Proof.
  unfold wellFormed, registryConsistent, idsNonEmpty.
  intros -> ->. auto.
Qed.

Lemma wellFormed_allocated (w : World) : wellFormed w -> wellFormed (allocated w).
Proof.
  intros [Hreg Hids]. split.
  - intros sid h Hl. destruct (Hreg sid h Hl) as (t & Ht & Hsid).
    exists t. split; [|exact Hsid]. simpl. apply lookup_app_l_Some. exact Ht.
  - intros h t. simpl. rewrite lookup_app_Some.
    intros [Ht | [_ Ht]]; [eapply Hids; exact Ht|].
    destruct (h - length (objects w))%nat; simpl in Ht; [|discriminate].
    injection Ht as <-. discriminate.
Qed.

Lemma deliver_wellFormed (transport : Handle) (n : Index.Notification) :
  across (fun w w' => wellFormed w -> wellFormed w') (Index.deliver transport n).
Proof.
  intros w [Hreg Hids].
  destruct n as [u|]; unfold Index.deliver, Index.onclose, Index.onsessioninitialized; run_m.
  - destruct (objects w !! transport) as [[[sid|]]|] eqn:Hobj; simpl;
      try (split; assumption).
    split.
    + intros sid h. simpl. rewrite lookup_insert_Some.
      intros [[<- <-] | [Hne Hl]].
      * exists {| sessionId := Some (Index.uuidString u) |}. split; [|reflexivity].
        apply list_lookup_insert_eq. eapply lookup_lt_Some. exact Hobj.
      * destruct (Hreg sid h Hl) as (t & Ht & Hsid).
        exists t. split; [|exact Hsid].
        rewrite list_lookup_insert_ne; [exact Ht|].
        intros <-. rewrite Hobj in Ht. injection Ht as <-. discriminate.
    + intros h t. simpl. intros Ht.
      destruct (decide (transport = h)) as [<-|Hne].
      * rewrite list_lookup_insert_eq in Ht by (eapply lookup_lt_Some; exact Hobj).
        injection Ht as <-. discriminate.
      * rewrite list_lookup_insert_ne in Ht by exact Hne. eapply Hids. exact Ht.
  - destruct (objects w !! transport) as [[[sid|]]|] eqn:Hobj; simpl;
      try (split; assumption).
    destruct (negb (String.eqb sid "")); simpl; [|split; assumption].
    split.
    + intros sid' h. simpl. rewrite lookup_delete_Some. intros [_ Hl].
      apply Hreg. exact Hl.
    + exact Hids.
Qed.

Lemma step_wellFormed (mode : string) (s : Index.Step) (w : World) :
  wellFormed w -> wellFormed (Index.step mode s w).
Proof.
  apply (step_across (fun w w' => wellFormed w -> wellFormed w')
           (fun w H => H) (fun w1 w2 w3 H12 H23 H => H23 (H12 H))
           (fun t w H => H) (fun h w H => H) (fun h w H => H) wellFormed_allocated).
  intros h n _. apply deliver_wellFormed.
Qed.

Lemma run_snoc (mode : string) (steps : list Index.Step) (s : Index.Step) (w : World) :
  Index.run mode (steps ++ [s]) w = Index.step mode s (Index.run mode steps w).
Proof. unfold Index.run. rewrite fold_left_app. reflexivity. Qed.

Lemma run_wellFormed (mode : string) (steps : list Index.Step) :
  wellFormed (Index.run mode steps initial).
Proof.
  induction steps as [|s steps IH] using rev_ind.
  - split.
    + intros sid h Hl. simpl in Hl. rewrite lookup_empty in Hl. discriminate.
    + intros h t Hl. simpl in Hl. discriminate.
  - rewrite run_snoc. apply step_wellFormed. exact IH.
Qed.

Lemma idsKept_refl (w : World) : idsKept w w.
Proof. intros h t sid Ht Hsid. eauto. Qed.

Lemma idsKept_trans (w1 w2 w3 : World) : idsKept w1 w2 -> idsKept w2 w3 -> idsKept w1 w3.
Proof.
  intros H12 H23 h t sid Ht Hsid.
  destruct (H12 h t sid Ht Hsid) as (t2 & Ht2 & Hsid2).
  apply (H23 h t2 sid Ht2 Hsid2).
Qed.

Lemma deliver_idsKept (transport : Handle) (n : Index.Notification) :
  across idsKept (Index.deliver transport n).
Proof.
  intros w.
  destruct n as [u|]; unfold Index.deliver, Index.onclose, Index.onsessioninitialized; run_m.
  - destruct (objects w !! transport) as [[[sid|]]|] eqn:Hobj; simpl;
      try apply idsKept_refl.
    intros h t sid Ht Hsid. simpl.
    exists t. split; [|exact Hsid].
    rewrite list_lookup_insert_ne; [exact Ht|].
    intros <-. pose proof (eq_trans (eq_sym Ht) Hobj) as E.
    injection E as ->. discriminate.
  - destruct (objects w !! transport) as [[[sid|]]|]; simpl; try apply idsKept_refl.
    destruct (negb _); simpl; try apply idsKept_refl.
    intros h t sid' Ht Hsid. simpl. eauto.
Qed.

Lemma step_idsKept (mode : string) (s : Index.Step) (w : World) :
  idsKept w (Index.step mode s w).
Proof.
  apply (step_across idsKept); auto using idsKept_refl.
  - apply idsKept_trans.
  - intros t w0 h t0 sid Ht Hsid. simpl. eauto.
  - intros h w0 h0 t0 sid Ht Hsid. simpl. eauto.
  - intros h w0 h0 t0 sid Ht Hsid. simpl. eauto.
  - intros w0 h t sid Ht Hsid. simpl. exists t. split; [|exact Hsid].
    apply lookup_app_l_Some. exact Ht.
  - intros h n _. apply deliver_idsKept.
Qed.

Lemma deliver_no_removal (transport : Handle) (u : Index.Uuid) :
  across (fun w w' => removals (trace w') = removals (trace w))
    (Index.deliver transport (Index.SessionInitialized u)).
Proof.
  intros w. unfold Index.deliver, Index.onsessioninitialized. run_m.
  destruct (objects w !! transport) as [[[sid|]]|]; simpl; try reflexivity.
  unfold removals. rewrite omap_app. simpl. apply app_nil_r.
Qed.

Lemma step_no_removal (mode : string) (s : Index.Step) (w : World) :
  ~ In Index.Closed (signals s) ->
  removals (trace (Index.step mode s w)) = removals (trace w).
Proof.
  intros Hnone.
  apply (step_across (fun w w' => removals (trace w') = removals (trace w))); auto.
  - intros w1 w2 w3 H12 H23. congruence.
  - intros h w0. simpl. unfold removals. rewrite omap_app. simpl. apply app_nil_r.
  - intros h w0. simpl. unfold removals. rewrite omap_app. simpl. apply app_nil_r.
  - intros h [u|] Hin; [apply deliver_no_removal | contradiction].
Qed.

(** C8. In every state the server can reach: when the connection of a
    session signals close, the close handler removes that session's id
    from the registry, with exactly one removal, and leaves no entry
    that still names the closed connection, while the other sessions
    stay registered; a DELETE during which the SDK closes the connection
    removes the session in the same way. A step in which no close is
    signalled removes nothing: the handlers themselves never delete from
    the registry. And no step changes an id that a connection has been
    assigned. *)
Theorem close_removes_session (mode : string) (steps : list Index.Step) :
  let w := Index.run mode steps initial in
  (forall h t sid, objects w !! h = Some t -> sessionId t = Some sid ->
     let w' := Index.step mode (Index.Signal h Index.Closed) w in
     transports w' !! sid = None
     /\ (forall sid', transports w' !! sid' <> Some h)
     /\ trace w' = trace w ++ [RegistryDelete sid]
     /\ (forall sid', sid' <> sid -> transports w' !! sid' = transports w !! sid'))
  /\ (forall sdk req sid h,
      Index.mcpSessionId req = Some sid -> transports w !! sid = Some h ->
      Index.notifications sdk = [Index.Closed] ->
      let w' := Index.step mode (Index.GetOrDelete sdk req) w in
      transports w' !! sid = None
      /\ removals (trace w') = removals (trace w) ++ [sid])
  /\ (forall s, ~ In Index.Closed (signals s) ->
      removals (trace (Index.step mode s w)) = removals (trace w))
  /\ (forall s, idsKept w (Index.step mode s w)).
Proof.
  intros w.
  pose proof (run_wellFormed mode steps) as [Hreg Hids]. fold w in Hreg, Hids.
  assert (Hclose : forall h t sid, objects w !! h = Some t -> sessionId t = Some sid ->
            forall w0, transports w0 = transports w -> objects w0 = objects w ->
            Index.onclose h w0
            = (Return tt,
               mkWorld (accountId w0) (externalToken w0) (delete sid (transports w0))
                       (objects w0) (trace w0 ++ [RegistryDelete sid]))).
  { intros h t sid Ht Hsid w0 Htr Hob.
    assert (Ht0 : objects w0 !! h = Some t) by (rewrite Hob; exact Ht).
    assert (Hne : String.eqb sid "" = false).
    { apply String.eqb_neq. intros ->. apply (Hids h t Ht). exact Hsid. }
    unfold Index.onclose, bind, gets. rewrite Ht0, Hsid. simpl. rewrite Hne. simpl.
    unfold bind, setTransports, emit, modify. reflexivity. }
  split; [|split; [|split]].
  - intros h t sid Ht Hsid. simpl.
    rewrite (Hclose h t sid Ht Hsid w eq_refl eq_refl). simpl.
    split; [apply lookup_delete_eq|]. split; [|split; [reflexivity|]].
    + intros sid' Hl. apply lookup_delete_Some in Hl as [Hne Hl].
      destruct (Hreg sid' h Hl) as (t' & Ht' & Hsid').
      pose proof (eq_trans (eq_sym Ht) Ht') as E. injection E as <-.
      congruence.
    + intros sid' Hne. apply lookup_delete_ne. congruence.
  - intros sdk req sid h Hreq Hl Hn. simpl.
    destruct (Hreg sid h Hl) as (t & Ht & Hsid).
    assert (Hne : sid <> "").
    { intros ->. apply (Hids h t Ht). exact Hsid. }
    rewrite handleSessionRequest_paths, Hreq, (registered_Some _ _ _ Hne Hl). simpl.
    unfold served. rewrite Hn. simpl. unfold bind.
    rewrite (Hclose h t sid Ht Hsid (logged [HandleRequest h] w) eq_refl eq_refl).
    simpl. split; [apply lookup_delete_eq|].
    unfold removals. rewrite !omap_app. simpl. rewrite app_nil_r. reflexivity.
  - intros s. apply step_no_removal.
  - intros s. apply step_idsKept.
Qed.

Lemma close_removes_session_witness :
  let w := Index.run "interactive"
             [Index.Post initializingSdk
                {| Index.mcpSessionId := None;
                   Index.authorization := None;
                   Index.body := Some initializeBody |}] initial in
  transports w !! sampleId = Some 0
  /\ transports (Index.step "interactive" (Index.Signal 0 Index.Closed) w) !! sampleId = None
  /\ transports
       (Index.step "interactive"
          (Index.GetOrDelete closingSdk
             {| Index.mcpSessionId := Some sampleId;
                Index.authorization := None;
                Index.body := None |}) w) !! sampleId = None.
Proof.
  intros w.
  pose proof (close_removes_session "interactive"
                [Index.Post initializingSdk
                   {| Index.mcpSessionId := None;
                      Index.authorization := None;
                      Index.body := Some initializeBody |}]) as (H1 & H2 & _).
  split; [reflexivity|]. split.
  - apply (H1 0 {| sessionId := Some sampleId |} sampleId eq_refl eq_refl).
  - apply (H2 closingSdk
             {| Index.mcpSessionId := Some sampleId;
                Index.authorization := None;
                Index.body := None |} sampleId 0 eq_refl eq_refl eq_refl).
Defined.

(** *** The other versions *)

(** X19. The earlier factories chain the CLI identity for a non-empty
    tenant id in "env" mode as well. Both build the generic source
    first and the CLI identity next, and throw what either constructor
    throws; the second draft sets AZURE_TOKEN_CREDENTIALS to "dev"
    before that, unless the type is "env". *)
Remark earlier_versions_chain_on_tenant
    (idp : Auth.IdentityProvider) (type t : string)
    (options2 : option AuthDraft2.Options) (w : World) :
  type = "azcli" \/ type = "env" -> t <> "" ->
  let chain := ChainedTokenCredential [AzureCliCredential t; DefaultAzureCredential] in
  let assignedValue := if String.eqb type "env" then None else Some "dev" in
  let w2 := if String.eqb type "env" then w
            else logged [SetEnv "AZURE_TOKEN_CREDENTIALS" "dev"] w in
  (constructs idp None t ->
     AuthUpstream.createAuthenticator idp type (Some t) w
       = (Return (Auth.FromCredential chain), w))
  /\ (constructs idp assignedValue t ->
      AuthDraft2.createAuthenticator idp type (Some t) options2 w
        = (Return (AuthDraft2.FromCredential chain), w2))
  /\ (forall name, Auth.newAzureCliCredential idp t = Rejected name ->
      (Auth.newDefaultAzureCredential idp None = Resolved tt ->
         AuthUpstream.createAuthenticator idp type (Some t) w
           = (Throw (LibraryError name), w))
      /\ (Auth.newDefaultAzureCredential idp assignedValue = Resolved tt ->
          AuthDraft2.createAuthenticator idp type (Some t) options2 w
            = (Throw (LibraryError name), w2)))
  /\ (forall name,
      (Auth.newDefaultAzureCredential idp None = Rejected name ->
         AuthUpstream.createAuthenticator idp type (Some t) w
           = (Throw (LibraryError name), w))
      /\ (Auth.newDefaultAzureCredential idp assignedValue = Rejected name ->
          AuthDraft2.createAuthenticator idp type (Some t) options2 w
            = (Throw (LibraryError name), w2))).
Proof.
  intros Htype Hne. apply String.eqb_neq in Hne.
  unfold AuthUpstream.createAuthenticator, AuthDraft2.createAuthenticator, constructs.
  destruct Htype as [-> | ->]; simpl; rewrite Hne; simpl;
    unfold bind, emit, modify, ret; simpl;
    fold (logged [SetEnv "AZURE_TOKEN_CREDENTIALS" "dev"] w);
    (split; [|split; [|split]]).
  all: try (intros [-> ->]; reflexivity).
  all: try (intros name Hcli; split; intros ->; simpl; rewrite Hcli; reflexivity).
  all: intros name; split; intros ->; reflexivity.
Qed.

(** The second draft of the on-behalf-of back end needs the assertion
    when it is built and exchanges that one at every call, whatever the
    call passes. *)
Remark draft2_obo_assertion_at_construction
    (idp : Auth.IdentityProvider) (tenantId : option string)
    (options : option AuthDraft2.Options) (w : World) :
  (forall o, options = Some o -> Js.truthy (AuthDraft2.userAssertion o) = false ->
     AuthDraft2.createAuthenticator idp "obo" tenantId options w
       = (Throw (Error "OBO requires clientId, clientSecret, and userAssertion."), w))
  /\ (forall oboAuth bound userAssertion w1,
      AuthDraft2.call idp (AuthDraft2.FromObo oboAuth bound) userAssertion w1
        = AuthDraft2.getToken idp oboAuth bound w1).
Proof.
  split.
  - intros [[id|] [secret|] [ua|]] -> Hua; simpl in *; try reflexivity.
    unfold AuthDraft2.createAuthenticator. simpl. rewrite Hua, andb_false_r. reflexivity.
  - reflexivity.
Qed.

(** X18. The second draft of the POST handler is the first in any mode
    other than "external" and "obo". *)
Remark draft2_post_agrees (mode : string) (sdk : Index.Sdk) (req : Index.Request) (w : World) :
  mode <> "external" -> mode <> "obo" ->
  IndexDraft2.post sdk req w = Index.post mode sdk req w.
Proof.
  intros He Ho. apply String.eqb_neq in He, Ho.
  rewrite post_paths. unfold admitted, identified, released. rewrite He, Ho. simpl.
  unfold IndexDraft2.post, settledReply, Index.newTransport. run_m.
  destruct (Index.registered _ _) as [[transport|inheritedName]|]; simpl.
  - rewrite handleRequest_served. destruct (Index.handled sdk) as [[]|name]; reflexivity.
  - reflexivity.
  - destruct (_ && _); [|reflexivity].
    destruct (Index.connected sdk) as [[]|name]; simpl.
    + rewrite handleRequest_served. unfold logged, allocated. simpl.
      rewrite <- app_assoc. simpl.
      destruct (Index.handled sdk) as [[]|name]; reflexivity.
    + unfold logged, allocated. simpl. rewrite <- app_assoc. reflexivity.
Qed.

(** *** Start-up *)

(** In "obo" mode [main] refuses to start without both environment
    variables. *)
Remark startup_obo_requires_environment
    (idp : Auth.IdentityProvider) (argv : Index.Argv) (env : Index.ProcessEnv) (w : World) :
  Index.authentication argv = "obo" ->
  Js.truthy (Index.AZURE_CLIENT_ID env) = false
  \/ Js.truthy (Index.AZURE_CLIENT_SECRET env) = false ->
  Index.selectAuthenticator idp argv env w
  = (Throw (Error "OBO authentication requires AZURE_CLIENT_ID and AZURE_CLIENT_SECRET environment variables."), w).
Proof.
  intros Hmode Henv. unfold Index.selectAuthenticator. rewrite Hmode. simpl.
  destruct Henv as [-> | ->]; simpl; [reflexivity|].
  rewrite orb_true_r. reflexivity.
Qed.

(** In "external" mode the wrapped authenticator answers with the
    transient token of the request in flight, whatever assertion the
    caller passes, and throws when there is none. *)
Remark external_mode_authenticator
    (idp : Auth.IdentityProvider) (argv : Index.Argv) (env : Index.ProcessEnv)
    (userAssertion : option string) (w : World) :
  Index.authentication argv = "external" ->
  Index.selectAuthenticator idp argv env w = (Return Index.TokenProvider, w)
  /\ (forall t, externalToken w = Some t -> t <> "" ->
      Index.authenticator (Index.callOriginal idp Index.TokenProvider) userAssertion w
        = (Return t, w))
  /\ (Js.truthy (externalToken w) = false ->
      Index.authenticator (Index.callOriginal idp Index.TokenProvider) userAssertion w
        = (Throw externalTokenRequired, w)).
Proof.
  intros Hmode. split; [|split].
  - unfold Index.selectAuthenticator. rewrite Hmode. reflexivity.
  - intros t Ht Hne. apply String.eqb_neq in Hne.
    unfold Index.authenticator, Index.callOriginal, Index.tokenProvider, bind, gets, ret.
    destruct (Js.truthy userAssertion); repeat (rewrite Ht; simpl; rewrite ?Hne; simpl);
      reflexivity.
  - intros Hf.
    unfold Index.authenticator, Index.callOriginal, Index.tokenProvider, bind, gets, throw.
    destruct (Js.truthy userAssertion); rewrite ?Hf;
      destruct (externalToken w); rewrite ?Hf; reflexivity.
Qed.

(** ** Further properties of the code *)

(** *** The back ends *)

(** X1. Called with a non-empty assertion, the on-behalf-of
    authenticator performs exactly one exchange, with that assertion,
    and touches nothing else: it returns the access token of the answer,
    throws "Failed to obtain OBO token." when the answer is empty or
    carries no access token, and lets a rejection of the exchange
    through. *)
Theorem obo_exchange
    (idp : Auth.IdentityProvider) (obo : Auth.OboAuthenticator) (t : string) (w : World) :
  t <> "" ->
  Auth.call idp (Auth.FromObo obo) (Some t) w
  = (match Auth.acquireTokenOnBehalfOf idp (Auth.cca obo) t with
     | Resolved r => exchanged r
     | Rejected name => Throw (LibraryError name)
     end,
     logged [AcquireTokenOnBehalfOf t] w).
Proof.
  intros Hne. apply String.eqb_neq in Hne.
  simpl. rewrite Hne. simpl.
  unfold Auth.getTokenOnBehalfOf, exchanged, logged. run_m.
  destruct (Auth.acquireTokenOnBehalfOf idp (Auth.cca obo) t) as [[r|]|name]; simpl;
    try reflexivity.
  destruct (String.eqb (accessToken r) ""); reflexivity.
Qed.

Lemma obo_exchange_witness :
  Auth.call grantingIdp (Auth.FromObo contosoObo) (Some "U") initial
  = (Return "obo:U", logged [AcquireTokenOnBehalfOf "U"] initial)
  /\ Auth.call cancellingIdp (Auth.FromObo contosoObo) (Some "U") initial
     = (Throw (LibraryError "invalid_grant"), logged [AcquireTokenOnBehalfOf "U"] initial).
Proof.
  split.
  - apply (obo_exchange grantingIdp contosoObo "U" initial). discriminate.
  - apply (obo_exchange cancellingIdp contosoObo "U" initial). discriminate.
Defined.

(** The factory throws in three cases: the type is "obo" and a client
    id or a client secret is missing or empty; the type is "azcli" or
    "env" and the generic source cannot be built; the type is "azcli"
    and the CLI identity refuses the non-empty tenant id. *)
Lemma createAuthenticator_throws
    (idp : Auth.IdentityProvider) (type : string) (tenantId : option string)
    (options : option Auth.Options) (w : World) :
  (exists e, fst (Auth.createAuthenticator idp type tenantId options w) = Throw e)
  <-> (type = "obo" /\ credentialsMissing options = true)
      \/ ((type = "azcli" \/ type = "env")
          /\ exists name, Auth.newDefaultAzureCredential idp None = Rejected name)
      \/ (type = "azcli"
          /\ exists t name, tenantId = Some t /\ t <> ""
                            /\ Auth.newAzureCliCredential idp t = Rejected name).
Proof.
  unfold Auth.createAuthenticator, credentialsMissing.
  destruct (String.eqb type "azcli") eqn:Hcli.
  { apply String.eqb_eq in Hcli. subst type. simpl. unfold bind.
    destruct (Auth.newDefaultAzureCredential idp None) as [[]|dname] eqn:Hd; simpl.
    - destruct tenantId as [t|]; simpl.
      + destruct (String.eqb t "") eqn:Ht; simpl.
        * split.
          -- intros [e He]. discriminate.
          -- intros [[H _] | [[_ [name H]] | [_ (t' & name & [= <-] & Hne & _)]]];
               try discriminate.
             apply String.eqb_eq in Ht. contradiction.
        * destruct (Auth.newAzureCliCredential idp t) as [[]|cname] eqn:Hc; simpl.
          -- split.
             ++ intros [e He]. discriminate.
             ++ intros [[H _] | [[_ [name H]] | [_ (t' & name & [= <-] & _ & H)]]];
                  try discriminate. congruence.
          -- split.
             ++ intros _. right. right. split; [reflexivity|].
                exists t, cname. apply String.eqb_neq in Ht. auto.
             ++ intros _. eexists. reflexivity.
      + split.
        * intros [e He]. discriminate.
        * intros [[H _] | [[_ [name H]] | [_ (t' & name & H & _)]]]; discriminate.
    - split.
      + intros _. right. left. split; [auto|]. eauto.
      + intros _. eexists. reflexivity. }
  apply String.eqb_neq in Hcli.
  destruct (String.eqb type "env") eqn:Henv.
  { apply String.eqb_eq in Henv. subst type. simpl. unfold bind.
    destruct (Auth.newDefaultAzureCredential idp None) as [[]|dname] eqn:Hd; simpl.
    - destruct tenantId as [t|]; simpl; rewrite ?andb_false_r;
        (split;
          [ intros [e He]; discriminate
          | intros [[H _] | [[_ [name H]] | [H _]]]; discriminate ]).
    - split.
      + intros _. right. left. split; [auto|]. eauto.
      + intros _. eexists. reflexivity. }
  apply String.eqb_neq in Henv. simpl.
  destruct (String.eqb type "external") eqn:Hext.
  { apply String.eqb_eq in Hext. subst type. split.
    - intros [e He]. discriminate.
    - intros [[H _] | [[[H|H] _] | [H _]]]; discriminate. }
  destruct (String.eqb type "obo") eqn:Hobo.
  { apply String.eqb_eq in Hobo. subst type.
    destruct options as [[[id|] [secret|]]|]; simpl;
      try destruct (String.eqb id ""); try destruct (String.eqb secret ""); simpl;
      (split;
        [ intros [e He]; first [discriminate | left; split; reflexivity]
        | intros [[_ H] | [[[H|H] _] | [H _]]];
            first [discriminate | eexists; reflexivity] ]). }
  apply String.eqb_neq in Hobo. split.
  - intros [e He]. discriminate.
  - intros [[H _] | [[[H|H] _] | [H _]]]; contradiction.
Qed.

(** X2. The factory throws in three cases only: the type is "obo" and a
    client id or a client secret is missing or empty; the type is
    "azcli" or "env" and the constructor of the generic source throws;
    the type is "azcli", the tenant id is not empty and the constructor
    of the CLI identity refuses it. It asks no source for a token and
    leaves the external token, the registry and the transports alone. *)
Theorem createAuthenticator_throws_iff
    (idp : Auth.IdentityProvider) (type : string) (tenantId : option string)
    (options : option Auth.Options) (w : World) :
  ((exists e, fst (Auth.createAuthenticator idp type tenantId options w) = Throw e)
   <-> (type = "obo" /\ credentialsMissing options = true)
       \/ ((type = "azcli" \/ type = "env")
           /\ exists name, Auth.newDefaultAzureCredential idp None = Rejected name)
       \/ (type = "azcli"
           /\ exists t name, tenantId = Some t /\ t <> ""
                             /\ Auth.newAzureCliCredential idp t = Rejected name))
  /\ trace (snd (Auth.createAuthenticator idp type tenantId options w)) = trace w
  /\ externalToken (snd (Auth.createAuthenticator idp type tenantId options w))
     = externalToken w
  /\ transports (snd (Auth.createAuthenticator idp type tenantId options w)) = transports w
  /\ objects (snd (Auth.createAuthenticator idp type tenantId options w)) = objects w.
Proof.
  split; [apply createAuthenticator_throws|].
  unfold Auth.createAuthenticator, Auth.construct, bind.
  destruct (String.eqb type "azcli" || String.eqb type "env").
  - destruct (Auth.newDefaultAzureCredential idp None) as [[]|dname]; simpl;
      [|repeat split].
    destruct tenantId as [t|]; [|repeat split].
    destruct (_ && _); [|repeat split].
    destruct (Auth.newAzureCliCredential idp t) as [[]|cname]; repeat split.
  - destruct (String.eqb type "external"); [repeat split|].
    destruct (String.eqb type "obo"); [|repeat split].
    destruct options as [[[id|] [secret|]]|]; try (split; [|split; [|split]]; reflexivity).
    destruct (_ && _); repeat split.
Qed.

(** X3. For the service-chain and the interactive back ends the wrapper
    of [main] changes nothing: whatever assertion is passed and whatever
    the transient token holds, the call is the call of the back end
    without an assertion. *)
Theorem wrapper_transparent
    (idp : Auth.IdentityProvider) (a : Auth.Authenticator)
    (userAssertion : option string) (w : World) :
  (forall obo, a <> Auth.FromObo obo) -> a <> Auth.FromExternal ->
  Index.authenticator (Auth.call idp a) userAssertion w = Auth.call idp a None w.
Proof.
  intros Hobo Hext. unfold Index.authenticator, bind, gets.
  destruct a as [credential | | obo | oauth];
    [ | contradiction | exfalso; apply (Hobo obo); reflexivity | ];
    destruct (Js.truthy userAssertion); simpl; try reflexivity;
    destruct (Js.truthy (externalToken w)); reflexivity.
Qed.

Lemma wrapper_transparent_witness :
  Index.authenticator (Auth.call grantingIdp (Auth.FromOAuth commonOAuth)) (Some "A")
    (holding "T")
  = Auth.call grantingIdp (Auth.FromOAuth commonOAuth) None (holding "T").
Proof.
  apply (wrapper_transparent grantingIdp (Auth.FromOAuth commonOAuth) (Some "A")
           (holding "T")); discriminate.
Defined.

(** X4. [getToken] stores the account of an interactive result before
    it looks at the access token: when the interactive flow hands back
    an account, the next call goes to the silent refresh with that
    account and does not open the interactive flow again, also when the
    first call threw for want of an access token. *)
Theorem getToken_account_cached_before_check
    (idp1 idp2 : Auth.IdentityProvider) (self : Auth.OAuthAuthenticator) (w : World)
    (a : AccountInfo) (r1 r2 : AuthenticationResult) :
  accountId w = None ->
  Auth.acquireTokenInteractive idp1 (Auth.publicClientApp self) = Resolved r1 ->
  account r1 = Some a ->
  Auth.acquireTokenSilent idp2 (Auth.publicClientApp self) a = Resolved r2 ->
  Auth.getToken idp2 self (snd (Auth.getToken idp1 self w))
  = (usable r2,
     logged [AcquireTokenInteractive; AcquireTokenSilent a] (signedIn (Some a) w)).
Proof.
  intros Hw H1 Ha H2. destruct w as [acct ext reg objs tr]. simpl in Hw. subst acct.
  unfold Auth.getToken, usable, logged, signedIn. run_m. rewrite H1. simpl.
  destruct (negb (String.eqb (accessToken r1) "")); simpl in *;
    rewrite Ha; simpl; rewrite H2; simpl; rewrite <- app_assoc; simpl;
    destruct (String.eqb (accessToken r2) ""); reflexivity.
Qed.

Lemma getToken_account_cached_before_check_witness :
  fst (Auth.getToken tokenlessIdp commonOAuth initial)
    = Throw (Error "Failed to obtain Azure DevOps OAuth token.")
  /\ Auth.getToken grantingIdp commonOAuth (snd (Auth.getToken tokenlessIdp commonOAuth initial))
     = (Return "silent-token",
        logged [AcquireTokenInteractive; AcquireTokenSilent alice]
          (signedIn (Some alice) initial)).
Proof.
  split; [reflexivity|].
  apply (getToken_account_cached_before_check tokenlessIdp grantingIdp commonOAuth initial
           alice {| accessToken := ""; account := Some alice |}
           {| accessToken := "silent-token"; account := Some alice |});
    reflexivity.
Defined.

(** *** Start-up *)

(** Start-up throws when "obo" mode lacks a client id or a client
    secret in the environment, and when the factory throws on the
    credential it is asked to build. *)
Lemma selectAuthenticator_throws
    (idp : Auth.IdentityProvider) (argv : Index.Argv) (env : Index.ProcessEnv) (w : World) :
  (exists e, fst (Index.selectAuthenticator idp argv env w) = Throw e)
  <-> (Index.authentication argv = "obo"
       /\ (Js.truthy (Index.AZURE_CLIENT_ID env) = false
           \/ Js.truthy (Index.AZURE_CLIENT_SECRET env) = false))
      \/ ((Index.authentication argv = "azcli" \/ Index.authentication argv = "env")
          /\ exists name, Auth.newDefaultAzureCredential idp None = Rejected name)
      \/ (Index.authentication argv = "azcli"
          /\ exists t name, Index.tenant argv = Some t /\ t <> ""
                            /\ Auth.newAzureCliCredential idp t = Rejected name).
Proof.
  unfold Index.selectAuthenticator.
  destruct (String.eqb (Index.authentication argv) "external") eqn:Hext.
  { apply String.eqb_eq in Hext. rewrite Hext. split.
    - intros [e He]. discriminate.
    - intros [[H _] | [[[H|H] _] | [H _]]]; discriminate. }
  destruct (String.eqb (Index.authentication argv) "obo") eqn:Hobo.
  { apply String.eqb_eq in Hobo. rewrite Hobo.
    unfold Auth.createAuthenticator, bind. simpl.
    destruct (Index.AZURE_CLIENT_ID env) as [id|],
             (Index.AZURE_CLIENT_SECRET env) as [secret|]; simpl;
      try destruct (String.eqb id ""); try destruct (String.eqb secret ""); simpl;
      (split;
        [ intros [e He]; first [discriminate | left; split; [reflexivity | auto]]
        | intros [[_ [H|H]] | [[[H|H] _] | [H _]]];
            first [discriminate | eexists; reflexivity] ]). }
  apply String.eqb_neq in Hobo.
  pose proof (createAuthenticator_throws idp (Index.authentication argv)
                (Index.tenant argv) None w) as Hfactory.
  unfold bind.
  destruct (Auth.createAuthenticator idp (Index.authentication argv) (Index.tenant argv) None w)
    as [[a|e] w']; simpl in *.
  - split.
    + intros [e He]. discriminate.
    + intros [[H _] | H]; [contradiction|].
      destruct (proj2 Hfactory (or_intror H)) as [e He]. discriminate.
  - split.
    + intros _. destruct (proj1 Hfactory (ex_intro _ e eq_refl)) as [[H _] | H];
        [contradiction|].
      right. exact H.
    + intros _. eexists. reflexivity.
Qed.

(** X5. Building the authenticator at start-up throws in three cases
    only: the mode is "obo" and AZURE_CLIENT_ID or AZURE_CLIENT_SECRET is
    unset or empty; the mode is "azcli" or "env" and the constructor of
    the generic source throws; the mode is "azcli", the tenant of the
    command line is not empty and the constructor of the CLI identity
    refuses it. With both variables set, "obo" mode yields the
    on-behalf-of authenticator made from exactly these two values and
    the tenant of the command line; the factory's own check never
    fires. *)
Theorem selectAuthenticator_throws_iff
    (idp : Auth.IdentityProvider) (argv : Index.Argv) (env : Index.ProcessEnv) (w : World) :
  ((exists e, fst (Index.selectAuthenticator idp argv env w) = Throw e)
   <-> (Index.authentication argv = "obo"
        /\ (Js.truthy (Index.AZURE_CLIENT_ID env) = false
            \/ Js.truthy (Index.AZURE_CLIENT_SECRET env) = false))
       \/ ((Index.authentication argv = "azcli" \/ Index.authentication argv = "env")
           /\ exists name, Auth.newDefaultAzureCredential idp None = Rejected name)
       \/ (Index.authentication argv = "azcli"
           /\ exists t name, Index.tenant argv = Some t /\ t <> ""
                             /\ Auth.newAzureCliCredential idp t = Rejected name))
  /\ (forall id secret,
      Index.authentication argv = "obo" ->
      Index.AZURE_CLIENT_ID env = Some id -> id <> "" ->
      Index.AZURE_CLIENT_SECRET env = Some secret -> secret <> "" ->
      Index.selectAuthenticator idp argv env w
        = (Return (Index.Created
                     (Auth.FromObo (Auth.newOboAuthenticator id secret (Index.tenant argv)))),
           w)).
Proof.
  split; [apply selectAuthenticator_throws|].
  unfold Index.selectAuthenticator.
  intros id secret Hobo Hid Hne Hsec Hne'.
  apply String.eqb_neq in Hne, Hne'.
  rewrite Hobo, Hid, Hsec. simpl. rewrite Hne, Hne'. simpl.
  unfold bind, Auth.createAuthenticator. simpl. rewrite Hne, Hne'. reflexivity.
Qed.

Lemma selectAuthenticator_throws_iff_witness :
  Index.selectAuthenticator grantingIdp oboArgv oboEnv initial
  = (Return (Index.Created (Auth.FromObo contosoObo)), initial).
Proof.
  apply (proj2 (selectAuthenticator_throws_iff grantingIdp oboArgv oboEnv initial)
           "app" "s3cret");
    first [reflexivity | discriminate].
Defined.

(** X6. The default authentication type is "azcli" exactly when
    CODESPACES is "true" and CODESPACE_NAME is set and not empty, and
    "interactive" otherwise. With the default type start-up never
    installs the external token provider, and it throws only in a
    codespace, when the constructor of the generic source throws or the
    constructor of the CLI identity refuses the non-empty tenant of the
    command line; otherwise it returns an authenticator made by the
    factory. *)
Theorem default_authentication_type
    (idp : Auth.IdentityProvider) (cenv : Index.CodespaceEnv) (env : Index.ProcessEnv)
    (tenant : option string) (w : World) :
  let argv := {| Index.authentication := Index.defaultAuthenticationType cenv;
                 Index.tenant := tenant |} in
  (Index.defaultAuthenticationType cenv = "azcli"
   <-> Index.CODESPACES cenv = Some "true" /\ Js.truthy (Index.CODESPACE_NAME cenv) = true)
  /\ (Index.defaultAuthenticationType cenv = "azcli"
      \/ Index.defaultAuthenticationType cenv = "interactive")
  /\ ((exists e, fst (Index.selectAuthenticator idp argv env w) = Throw e)
      <-> Index.defaultAuthenticationType cenv = "azcli"
          /\ ((exists name, Auth.newDefaultAzureCredential idp None = Rejected name)
              \/ exists t name, tenant = Some t /\ t <> ""
                                /\ Auth.newAzureCliCredential idp t = Rejected name))
  /\ ((exists e, fst (Index.selectAuthenticator idp argv env w) = Throw e)
      \/ exists a w', Index.selectAuthenticator idp argv env w = (Return (Index.Created a), w')).
Proof.
  intros argv.
  assert (Htypes : Index.defaultAuthenticationType cenv = "azcli"
                   \/ Index.defaultAuthenticationType cenv = "interactive").
  { unfold Index.defaultAuthenticationType. destruct (Index.isGitHubCodespaceEnv cenv); auto. }
  split; [|split; [exact Htypes|split]].
  - unfold Index.defaultAuthenticationType, Index.isGitHubCodespaceEnv.
    destruct (Index.CODESPACES cenv) as [v|]; simpl.
    + destruct (String.eqb v "true") eqn:Hv; simpl.
      * apply String.eqb_eq in Hv. subst v.
        destruct (Js.truthy (Index.CODESPACE_NAME cenv)); split; try discriminate; auto.
        intros [_ H]. discriminate.
      * apply String.eqb_neq in Hv. split; [discriminate|].
        intros [[= H] _]. contradiction.
    + split; [discriminate | intros [H _]; discriminate].
  - rewrite selectAuthenticator_throws. subst argv. simpl. split.
    + intros [[H _] | [[[H|H] Hname] | [H Hname]]];
        try (destruct Htypes as [Ht|Ht]; rewrite Ht in H; discriminate);
        auto.
    + intros [H [Hname | Hname]]; [right; left | right; right]; auto.
  - subst argv. unfold Index.selectAuthenticator. simpl.
    assert (Hext : String.eqb (Index.defaultAuthenticationType cenv) "external" = false)
      by (destruct Htypes as [-> | ->]; reflexivity).
    assert (Hobo : String.eqb (Index.defaultAuthenticationType cenv) "obo" = false)
      by (destruct Htypes as [-> | ->]; reflexivity).
    rewrite Hext, Hobo. unfold bind.
    destruct (Auth.createAuthenticator idp _ tenant None w) as [[a|e] w']; simpl.
    + right. eauto.
    + left. eauto.
Qed.

(** *** The authenticator around a request *)

Lemma post_obo_releases (sdk : Index.Sdk) (req : Index.Request) (w : World) :
  Js.truthy (bearer req) = true ->
  is_Some (Index.registered (transports w) (Index.mcpSessionId req)) ->
  externalToken (snd (Index.post "obo" sdk req w)) = None.
Proof.
  intros Hb [found Hfound]. rewrite post_paths. unfold admitted. rewrite Hb, Hfound.
  destruct found; reflexivity.
Qed.

Lemma post_external_assigns (sdk : Index.Sdk) (req : Index.Request) (w : World) :
  externalToken (snd (Index.post "external" sdk req w)) = bearer req.
Proof.
  rewrite post_paths. unfold admitted, identified, released. simpl.
  destruct (Index.registered _ _) as [[h|name]|]; simpl.
  - rewrite served_externalToken. reflexivity.
  - reflexivity.
  - destruct (_ && _); [|reflexivity].
    destruct (Index.connected sdk) as [[]|name]; simpl; [|reflexivity].
    rewrite served_externalToken. reflexivity.
Qed.

(** X7. In "obo" mode a token acquisition without assertion exchanges
    the token of the request in flight: while [externalToken] holds a
    non-empty value the wrapped authenticator exchanges that value; once
    a request has been handed to a connection and the handler is done,
    the same acquisition throws "OBO flow requires a user token to
    exchange." and calls no library. *)
Theorem obo_acquire_around_request
    (idp : Auth.IdentityProvider) (obo : Auth.OboAuthenticator)
    (userAssertion : option string) (sdk : Index.Sdk) (req : Index.Request) (w : World) :
  Js.truthy userAssertion = false ->
  (forall u, externalToken w = Some u -> u <> "" ->
     Index.authenticator (Auth.call idp (Auth.FromObo obo)) userAssertion w
       = Auth.getTokenOnBehalfOf idp obo u w)
  /\ (Js.truthy (bearer req) = true ->
      is_Some (Index.registered (transports w) (Index.mcpSessionId req)) ->
      Index.authenticator (Auth.call idp (Auth.FromObo obo)) userAssertion
        (snd (Index.post "obo" sdk req w))
      = (Throw (Error "OBO flow requires a user token to exchange."),
         snd (Index.post "obo" sdk req w))).
Proof.
  intros Hua. unfold Index.authenticator, bind, gets. rewrite Hua. split.
  - intros u Hu Hne. rewrite Hu. apply String.eqb_neq in Hne.
    simpl. rewrite Hne. simpl. rewrite ?Hne. reflexivity.
  - intros Hb Hrouted. rewrite (post_obo_releases sdk req w Hb Hrouted). reflexivity.
Qed.

Lemma obo_acquire_around_request_witness :
  Index.authenticator (Auth.call grantingIdp (Auth.FromObo contosoObo)) None (holding "U")
    = (Return "obo:U", logged [AcquireTokenOnBehalfOf "U"] (holding "U"))
  /\ fst (Index.authenticator (Auth.call grantingIdp (Auth.FromObo contosoObo)) None
            (snd (Index.post "obo" quietSdk
                    {| Index.mcpSessionId := Some "s1";
                       Index.authorization := Some "Bearer U";
                       Index.body := Some toolCallBody |} oneSession)))
     = Throw (Error "OBO flow requires a user token to exchange.").
Proof.
  split.
  - apply (proj1 (obo_acquire_around_request grantingIdp contosoObo None quietSdk
                    {| Index.mcpSessionId := Some "s1";
                       Index.authorization := Some "Bearer U";
                       Index.body := Some toolCallBody |} (holding "U") eq_refl) "U");
      [reflexivity | discriminate].
  - rewrite (proj2 (obo_acquire_around_request grantingIdp contosoObo None quietSdk
                      {| Index.mcpSessionId := Some "s1";
                         Index.authorization := Some "Bearer U";
                         Index.body := Some toolCallBody |} oneSession eq_refl)).
    + reflexivity.
    + reflexivity.
    + exists (Index.Own 0). reflexivity.
Defined.

(** X8. In "external" mode the client factory, called after a POST,
    builds its client for https://dev.azure.com/<organization> with the
    bearer value of that POST, whatever assertion it is called with;
    after a POST without bearer value it throws "External token must be
    provided" and builds no client. *)
Theorem external_client_after_post
    (idp : Auth.IdentityProvider) (orgName packageVersion composedAgent : string)
    (userAssertion : option string) (sdk : Index.Sdk) (req : Index.Request) (w : World) :
  let w' := snd (Index.post "external" sdk req w) in
  let client :=
    Index.getAzureDevOpsClient orgName packageVersion composedAgent
      (Index.authenticator (Index.callOriginal idp Index.TokenProvider)) userAssertion in
  (forall t, bearer req = Some t -> t <> "" ->
     client w'
     = (Return {| Index.serverUrl := ("https://dev.azure.com/" ++ orgName)%string;
                  Index.bearerHandler := t;
                  Index.productName := "AzureDevOps.MCP";
                  Index.productVersion := packageVersion;
                  Index.userAgent := composedAgent |}, w'))
  /\ (Js.truthy (bearer req) = false -> client w' = (Throw externalTokenRequired, w')).
Proof.
  intros w' client. subst client.
  pose proof (post_external_assigns sdk req w) as Hext. fold w' in Hext.
  clearbody w'.
  unfold Index.getAzureDevOpsClient, Index.authenticator, Index.callOriginal,
    Index.tokenProvider, Index.orgUrl, bind, gets, ret, throw.
  split.
  - intros t Ht Hne. apply String.eqb_neq in Hne. rewrite Ht in Hext.
    destruct (Js.truthy userAssertion);
      repeat (first [rewrite Hext | rewrite Hne]; simpl); reflexivity.
  - intros Hf. rewrite <- Hext in Hf.
    destruct (Js.truthy userAssertion); simpl; rewrite ?Hf; simpl;
      destruct (externalToken w'); simpl; rewrite ?Hf; reflexivity.
Qed.

Lemma external_client_after_post_witness :
  fst (Index.getAzureDevOpsClient "contoso" "1.0.0" "agent"
         (Index.authenticator (Index.callOriginal grantingIdp Index.TokenProvider)) None
         (snd (Index.post "external" quietSdk
                 {| Index.mcpSessionId := Some "s1";
                    Index.authorization := Some "Bearer T";
                    Index.body := Some toolCallBody |} oneSession)))
  = Return {| Index.serverUrl := "https://dev.azure.com/contoso";
              Index.bearerHandler := "T";
              Index.productName := "AzureDevOps.MCP";
              Index.productVersion := "1.0.0";
              Index.userAgent := "agent" |}.
Proof.
  rewrite (proj1 (external_client_after_post grantingIdp "contoso" "1.0.0" "agent" None
                    quietSdk
                    {| Index.mcpSessionId := Some "s1";
                       Index.authorization := Some "Bearer T";
                       Index.body := Some toolCallBody |} oneSession) "T");
    [reflexivity | reflexivity | discriminate].
Defined.

(** *** The GET and DELETE handler *)

(** X9. A GET or DELETE whose session header is absent or empty, or
    names neither a registered session nor a member that every object
    inherits from [Object.prototype], is answered with status 400 and
    the text "Invalid or missing session ID". One whose header is the
    name of such a member (such as "toString") and names no session is
    not answered: the lookup finds the member, and calling
    [handleRequest] on it throws a TypeError. Either way nothing is
    handed to a connection and the state of the process is what it
    was. *)
Theorem session_request_rejected (sdk : Index.Sdk) (req : Index.Request) (w : World) :
  (Js.truthy (Index.mcpSessionId req) = false
   \/ (exists sid, Index.mcpSessionId req = Some sid /\ transports w !! sid = None
                   /\ Index.inherited sid = false) ->
   Index.handleSessionRequest sdk req w
   = (Return (Index.TextReply 400 "Invalid or missing session ID"), w))
  /\ (forall sid, Index.mcpSessionId req = Some sid -> transports w !! sid = None ->
      Index.inherited sid = true ->
      Index.handleSessionRequest sdk req w = (Throw Index.notAFunction, w)).
Proof.
  rewrite handleSessionRequest_paths. split.
  - intros [Hf | (sid & Hsid & Hnone & Hown)].
    + rewrite (registered_falsy _ _ Hf). reflexivity.
    + rewrite Hsid, (registered_unknown _ _ Hnone Hown). reflexivity.
  - intros sid Hsid Hnone Hi.
    rewrite Hsid, (registered_inherited _ _ Hnone Hi). reflexivity.
Qed.

Lemma session_request_rejected_witness :
  Index.handleSessionRequest closingSdk
    {| Index.mcpSessionId := Some "s9"; Index.authorization := None; Index.body := None |}
    oneSession
  = (Return (Index.TextReply 400 "Invalid or missing session ID"), oneSession)
  /\ Index.handleSessionRequest closingSdk
       {| Index.mcpSessionId := Some "toString"; Index.authorization := None;
          Index.body := None |}
       oneSession
     = (Throw (TypeError "transport.handleRequest is not a function"), oneSession).
Proof.
  split.
  - apply (proj1 (session_request_rejected closingSdk
             {| Index.mcpSessionId := Some "s9"; Index.authorization := None;
                Index.body := None |} oneSession)).
    right. exists "s9". split; [|split]; reflexivity.
  - apply (proj2 (session_request_rejected closingSdk
             {| Index.mcpSessionId := Some "toString"; Index.authorization := None;
                Index.body := None |} oneSession) "toString"); reflexivity.
Defined.

Lemma served_length (sdk : Index.Sdk) (transport : Handle) (w : World) :
  length (objects (served sdk transport w)) = length (objects w).
Proof. destruct (served_quiet sdk transport w) as (_ & _ & Hl & _). exact Hl. Qed.

(** X10. A GET or DELETE that names a registered session is handed to
    that session's connection, once, in every mode and without any look
    at the Authorization header: no connection is created and the
    transient token is not touched. *)
Theorem session_request_routed
    (sdk : Index.Sdk) (req : Index.Request) (w : World) (sid : string) (h : Handle) :
  Index.mcpSessionId req = Some sid -> sid <> "" -> transports w !! sid = Some h ->
  let reply := fst (Index.handleSessionRequest sdk req w) in
  let w' := snd (Index.handleSessionRequest sdk req w) in
  reply = settledReply sdk h
  /\ requestsHandled (trace w') = requestsHandled (trace w) ++ [h]
  /\ transportsCreated (trace w') = transportsCreated (trace w)
  /\ length (objects w') = length (objects w)
  /\ externalToken w' = externalToken w.
Proof.
  intros Hsid Hne Hl reply w'. subst reply w'.
  rewrite handleSessionRequest_paths, Hsid, (registered_Some _ _ _ Hne Hl). simpl.
  rewrite served_requestsHandled, served_transportsCreated, served_length,
    served_externalToken.
  auto.
Qed.

Lemma session_request_routed_witness :
  fst (Index.handleSessionRequest quietSdk
         {| Index.mcpSessionId := Some "s1"; Index.authorization := None;
            Index.body := None |} oneSession)
  = Return (Index.TransportReply 0).
Proof.
  apply (session_request_routed quietSdk
           {| Index.mcpSessionId := Some "s1"; Index.authorization := None;
              Index.body := None |} oneSession "s1" 0);
    [reflexivity | discriminate | reflexivity].
Defined.

(** *** The registry over the life of the server *)

(** X11. In every state the server can reach, an entry of the registry
    is filed under a non-empty id and names a connection that exists
    and carries that very id. *)
Theorem registry_entries_consistent
    (mode : string) (steps : list Index.Step) (sid : string) (h : Handle) :
  transports (Index.run mode steps initial) !! sid = Some h ->
  sid <> ""
  /\ h < length (objects (Index.run mode steps initial))
  /\ exists t, objects (Index.run mode steps initial) !! h = Some t
               /\ sessionId t = Some sid.
Proof.
  intros Hl. destruct (run_wellFormed mode steps) as [Hreg Hids].
  destruct (Hreg sid h Hl) as (t & Ht & Hsid).
  split; [|split].
  - intros ->. apply (Hids h t Ht). exact Hsid.
  - eapply lookup_lt_Some. exact Ht.
  - eauto.
Qed.

Lemma registry_entries_consistent_witness :
  exists t,
    objects (Index.run "obo"
               [Index.Post initializingSdk
                  {| Index.mcpSessionId := None;
                     Index.authorization := Some "Bearer U";
                     Index.body := Some initializeBody |}] initial) !! 0 = Some t
    /\ sessionId t = Some sampleId.
Proof.
  apply (registry_entries_consistent "obo"
           [Index.Post initializingSdk
              {| Index.mcpSessionId := None;
                 Index.authorization := Some "Bearer U";
                 Index.body := Some initializeBody |}] sampleId 0).
  reflexivity.
Defined.

Lemma generated_In (ns : list Index.Notification) (u : Index.Uuid) :
  In (Index.SessionInitialized u) ns -> In (Index.uuidString u) (generated ns).
Proof.
  intros Hin. unfold generated. apply list_elem_of_In, list_elem_of_omap.
  exists (Index.SessionInitialized u). split; [apply list_elem_of_In; exact Hin | reflexivity].
Qed.

Lemma In_generated (ns : list Index.Notification) (sid : string) :
  In sid (generated ns) ->
  exists u, In (Index.SessionInitialized u) ns /\ sid = Index.uuidString u.
Proof.
  intros Hin. unfold generated in Hin.
  apply list_elem_of_In, list_elem_of_omap in Hin as (n & Hn & Hsid).
  destruct n as [u|]; [|discriminate]. injection Hsid as <-.
  exists u. split; [apply list_elem_of_In; exact Hn | reflexivity].
Qed.

Lemma step_registers_generated (mode : string) (s : Index.Step) (w : World) (sid : string) :
  is_Some (transports (Index.step mode s w) !! sid) ->
  is_Some (transports w !! sid) \/ In sid (generated (signals s)).
Proof.
  revert sid.
  apply (step_across
           (fun w w' => forall sid, is_Some (transports w' !! sid) ->
                          is_Some (transports w !! sid) \/ In sid (generated (signals s)))).
  - auto.
  - intros w1 w2 w3 H12 H23 sid H3.
    destruct (H23 sid H3) as [H2 | Hg]; [apply H12; exact H2 | right; exact Hg].
  - intros t w0 sid H. left. exact H.
  - intros h w0 sid H. left. exact H.
  - intros h w0 sid H. left. exact H.
  - intros w0 sid H. left. exact H.
  - intros h n Hin w0 sid.
    destruct n as [u|]; unfold Index.deliver, Index.onclose, Index.onsessioninitialized;
      run_m.
    + destruct (objects w0 !! h) as [[[sid'|]]|]; simpl; auto.
      rewrite lookup_insert_is_Some. intros [<- | [_ H]]; [|auto].
      right. apply generated_In. exact Hin.
    + destruct (objects w0 !! h) as [[[sid'|]]|]; simpl; auto.
      destruct (negb _); simpl; auto.
      rewrite lookup_delete_is_Some. intros [_ H]. auto.
Qed.

(** X12. Only ids generated by the SDK are ever registered: every key of
    the registry of a reachable state was generated, by
    [crypto.randomUUID], in a session-initialised notification of an
    earlier step. What a client sends in the mcp-session-id header never
    becomes a key. *)
Theorem only_generated_ids_registered
    (mode : string) (steps : list Index.Step) (sid : string) :
  is_Some (transports (Index.run mode steps initial) !! sid) ->
  exists s u, In s steps
              /\ In (Index.SessionInitialized u) (signals s)
              /\ sid = Index.uuidString u.
Proof.
  induction steps as [|s steps IH] using rev_ind.
  - simpl. rewrite lookup_empty. intros [x Hx]. discriminate.
  - rewrite run_snoc. intros Hreg.
    destruct (step_registers_generated mode s _ sid Hreg) as [Hold | Hnew].
    + destruct (IH Hold) as (s0 & u & Hin & Hsig & Hsid).
      exists s0, u. split; [apply in_or_app; left; exact Hin | auto].
    + destruct (In_generated _ _ Hnew) as (u & Hsig & Hsid).
      exists s, u. split; [apply in_or_app; right; left; reflexivity | auto].
Qed.

Lemma only_generated_ids_registered_witness :
  exists s u,
    In s [Index.Post initializingSdk
            {| Index.mcpSessionId := None;
               Index.authorization := None;
               Index.body := Some initializeBody |}]
    /\ In (Index.SessionInitialized u) (signals s)
    /\ sampleId = Index.uuidString u.
Proof.
  apply (only_generated_ids_registered "interactive"
           [Index.Post initializingSdk
              {| Index.mcpSessionId := None;
                 Index.authorization := None;
                 Index.body := Some initializeBody |}] sampleId).
  exists 0. reflexivity.
Defined.

Lemma registered_truthy (registry : gmap string Handle) (sessionId : option string)
    (found : Index.Found) :
  Index.registered registry sessionId = Some found -> Js.truthy sessionId = true.
Proof.
  unfold Index.registered. destruct sessionId as [sid|]; [|discriminate].
  destruct (Js.truthy (Some sid)); [reflexivity | discriminate].
Qed.

Lemma transportsCreated_app (tr es : list Effect) :
  transportsCreated (tr ++ es) = transportsCreated tr ++ transportsCreated es.
Proof. unfold transportsCreated. apply omap_app. Qed.

(** X13. Connections are created by one kind of step only: a POST that
    passes the identity step, names no session and carries an initialize
    call creates exactly one, at the next free index; every other POST,
    every GET or DELETE and every notification creates none. *)
Theorem connections_created_by_initialize_only
    (mode : string) (s : Index.Step) (w : World) :
  length (objects (Index.step mode s w))
  = length (objects w) + (if establishes mode s then 1 else 0)
  /\ transportsCreated (trace (Index.step mode s w))
     = transportsCreated (trace w)
       ++ (if establishes mode s then [length (objects w)] else []).
Proof.
  destruct s as [sdk req | sdk req | h n]; simpl.
  - rewrite post_paths.
    destruct (admitted mode req); simpl;
      [|rewrite Nat.add_0_r, app_nil_r; auto].
    destruct (Index.registered _ _) as [[h|name]|] eqn:Hreg; simpl.
    + rewrite (registered_truthy _ _ _ Hreg). simpl.
      unfold released. destruct (String.eqb mode "obo"); simpl;
        rewrite served_length, served_transportsCreated, identified_objects,
          identified_trace, Nat.add_0_r, app_nil_r; auto.
    + rewrite (registered_truthy _ _ _ Hreg). simpl.
      unfold released. destruct (String.eqb mode "obo"); simpl;
        rewrite identified_objects, identified_trace, Nat.add_0_r, app_nil_r; auto.
    + destruct (negb (Js.truthy (Index.mcpSessionId req))
                && Index.isInitializeBody (Index.body req)); simpl.
      * assert (Hpre :
          length (objects (logged [NewTransport (length (objects w));
                                   Connect (length (objects w))]
                             (allocated (identified mode req w))))
          = length (objects w) + 1
          /\ transportsCreated
               (trace (logged [NewTransport (length (objects w));
                               Connect (length (objects w))]
                         (allocated (identified mode req w))))
             = transportsCreated (trace w) ++ [length (objects w)]).
        { simpl. rewrite length_app, identified_objects, identified_trace,
            transportsCreated_app. auto. }
        destruct (Index.connected sdk) as [[]|name]; simpl; [|exact Hpre].
        unfold released. destruct (String.eqb mode "obo"); simpl;
          rewrite served_length, served_transportsCreated; exact Hpre.
      * rewrite identified_objects, identified_trace, Nat.add_0_r, app_nil_r. auto.
  - rewrite handleSessionRequest_paths.
    destruct (Index.registered _ _) as [[h|name]|]; simpl;
      rewrite ?served_length, ?served_transportsCreated, Nat.add_0_r, app_nil_r; auto.
  - destruct (deliver_quiet h n w) as (_ & _ & Hl & es & Ht & Hes).
    rewrite Hl, Ht, transportsCreated_app, (transportsCreated_registry es Hes),
      Nat.add_0_r. auto.
Qed.

(** X14. The close handler on its edges: for a connection that has no
    session id yet, or that does not exist, it changes nothing; it never
    changes a connection; and a second close leaves the registry as the
    first one left it. *)
Theorem close_edge_cases (h : Handle) (w : World) :
  (objects w !! h = None
   \/ (exists t, objects w !! h = Some t /\ Js.truthy (sessionId t) = false) ->
   Index.onclose h w = (Return tt, w))
  /\ objects (snd (Index.onclose h w)) = objects w
  /\ transports (snd (Index.onclose h (snd (Index.onclose h w))))
     = transports (snd (Index.onclose h w)).
Proof.
  unfold Index.onclose, bind, gets. split; [|split].
  - intros [Hnone | (t & Ht & Hf)].
    + rewrite Hnone. reflexivity.
    + rewrite Ht. destruct (sessionId t) as [sid|]; [|reflexivity].
      rewrite Hf. reflexivity.
  - destruct (objects w !! h) as [[[sid|]]|]; simpl; try reflexivity.
    destruct (negb _); reflexivity.
  - destruct (objects w !! h) as [[[sid|]]|] eqn:Hobj; simpl; rewrite ?Hobj; simpl;
      try reflexivity.
    destruct (negb (String.eqb sid "")) eqn:Hsid; simpl; rewrite Hobj; simpl;
      rewrite Hsid; simpl; [|reflexivity].
    apply delete_delete_eq.
Qed.

Lemma close_edge_cases_witness :
  Index.onclose 0 (allocated initial) = (Return tt, allocated initial)
  /\ Index.onclose 7 oneSession = (Return tt, oneSession).
Proof.
  split.
  - apply (proj1 (close_edge_cases 0 (allocated initial))).
    right. exists {| sessionId := None |}. split; reflexivity.
  - apply (proj1 (close_edge_cases 7 oneSession)). left. reflexivity.
Defined.

(** *** A session from handshake to teardown *)

Lemma released_objects (mode : string) (w : World) : objects (released mode w) = objects w.
Proof. unfold released. destruct (String.eqb mode "obo"); reflexivity. Qed.

Lemma served_without_notifications (sdk : Index.Sdk) (transport : Handle) (w : World) :
  Index.notifications sdk = [] ->
  served sdk transport w = logged [HandleRequest transport] w.
Proof. intros Hn. unfold served. rewrite Hn. reflexivity. Qed.

Lemma served_initialized_objects
    (sdk : Index.Sdk) (transport : Handle) (u : Index.Uuid) (w : World) :
  Index.notifications sdk = [Index.SessionInitialized u] ->
  objects w !! transport = Some {| sessionId := None |} ->
  objects (served sdk transport w) !! transport
  = Some {| sessionId := Some (Index.uuidString u) |}.
Proof.
  intros Hn Hobj. unfold served. rewrite Hn. simpl.
  unfold bind, Index.deliver, gets. simpl. rewrite Hobj.
  unfold Index.onsessioninitialized. run_m.
  apply list_lookup_insert_eq. eapply lookup_lt_Some. exact Hobj.
Qed.

Lemma served_closed_transports
    (sdk : Index.Sdk) (transport : Handle) (t : Transport) (sid : string) (w : World) :
  Index.notifications sdk = [Index.Closed] ->
  objects w !! transport = Some t -> sessionId t = Some sid -> sid <> "" ->
  transports (served sdk transport w) = delete sid (transports w).
Proof.
  intros Hn Hobj Hsid Hne. apply String.eqb_neq in Hne.
  unfold served. rewrite Hn. simpl.
  unfold Index.deliver, Index.onclose, bind, gets. simpl. rewrite Hobj, Hsid. simpl.
  rewrite Hne. reflexivity.
Qed.

(** X15. A session from handshake to teardown. After a POST that
    establishes a session for which the SDK generates the id [u], a
    POST carrying [u] is handed to the connection created by the
    handshake, whatever its body; a DELETE carrying [u] during which
    the SDK closes the connection is handed to it too and takes [u] out
    of the registry; and a later GET or DELETE carrying [u] is answered
    with status 400 "Invalid or missing session ID". *)
Theorem session_lifecycle
    (mode : string) (sdk1 sdk2 sdk3 sdk4 : Index.Sdk) (r1 r2 r3 r4 : Index.Request)
    (u : Index.Uuid) (w : World) :
  let sid := Index.uuidString u in
  let h := length (objects w) in
  let w1 := Index.step mode (Index.Post sdk1 r1) w in
  let w2 := Index.step mode (Index.Post sdk2 r2) w1 in
  let w3 := Index.step mode (Index.GetOrDelete sdk3 r3) w2 in
  admitted mode r1 = true ->
  Js.truthy (Index.mcpSessionId r1) = false ->
  Index.isInitializeBody (Index.body r1) = true ->
  Index.connected sdk1 = Resolved tt ->
  Index.notifications sdk1 = [Index.SessionInitialized u] ->
  admitted mode r2 = true ->
  Index.mcpSessionId r2 = Some sid ->
  Index.notifications sdk2 = [] ->
  Index.mcpSessionId r3 = Some sid ->
  Index.notifications sdk3 = [Index.Closed] ->
  Index.mcpSessionId r4 = Some sid ->
  transports w1 !! sid = Some h
  /\ fst (Index.post mode sdk2 r2 w1) = settledReply sdk2 h
  /\ requestsHandled (trace w2) = requestsHandled (trace w) ++ [h; h]
  /\ fst (Index.handleSessionRequest sdk3 r3 w2) = settledReply sdk3 h
  /\ transports w3 !! sid = None
  /\ Index.handleSessionRequest sdk4 r4 w3
     = (Return (Index.TextReply 400 "Invalid or missing session ID"), w3).
Proof.
  intros sid h w1 w2 w3 Ha1 Hf1 Hi1 Hc1 Hn1 Ha2 Hs2 Hn2 Hs3 Hn3 Hs4.
  assert (Hne : sid <> "") by (subst sid; discriminate).
  (* the handshake *)
  assert (Hfresh :
    objects (logged [NewTransport h; Connect h] (allocated (identified mode r1 w))) !! h
    = Some {| sessionId := None |}).
  { simpl. rewrite identified_objects. apply list_lookup_middle. reflexivity. }
  assert (Hw1 : w1 = released mode
                       (served sdk1 h
                          (logged [NewTransport h; Connect h]
                             (allocated (identified mode r1 w))))).
  { subst w1. simpl. rewrite post_paths, Ha1. simpl.
    rewrite (registered_falsy _ _ Hf1), Hf1, Hi1, Hc1. reflexivity. }
  assert (Hreg1 : transports w1 !! sid = Some h).
  { rewrite Hw1, released_transports, (served_registers sdk1 h u _ Hn1 Hfresh).
    apply lookup_insert_eq. }
  assert (Hobj1 : objects w1 !! h = Some {| sessionId := Some sid |}).
  { rewrite Hw1, released_objects. apply (served_initialized_objects sdk1 h u _ Hn1 Hfresh). }
  assert (Htr1 : requestsHandled (trace w1) = requestsHandled (trace w) ++ [h]).
  { rewrite Hw1, released_trace, served_requestsHandled. simpl.
    rewrite identified_trace. unfold requestsHandled. rewrite omap_app. simpl.
    rewrite app_nil_r. reflexivity. }
  (* the continuation *)
  assert (Hw2 : Index.post mode sdk2 r2 w1
                = (settledReply sdk2 h,
                   released mode (served sdk2 h (identified mode r2 w1)))).
  { rewrite post_paths, Ha2. simpl. rewrite Hs2, (registered_Some _ _ _ Hne Hreg1).
    reflexivity. }
  assert (Hreg2 : transports w2 = transports w1).
  { subst w2. simpl. rewrite Hw2. simpl.
    rewrite released_transports, (served_without_notifications _ _ _ Hn2). simpl.
    apply identified_transports. }
  assert (Hobj2 : objects w2 = objects w1).
  { subst w2. simpl. rewrite Hw2. simpl.
    rewrite released_objects, (served_without_notifications _ _ _ Hn2). simpl.
    apply identified_objects. }
  assert (Htr2 : requestsHandled (trace w2) = requestsHandled (trace w) ++ [h; h]).
  { subst w2. simpl. rewrite Hw2. simpl.
    rewrite released_trace, served_requestsHandled, identified_trace, Htr1,
      <- app_assoc. reflexivity. }
  (* the teardown *)
  assert (Hw3 : Index.handleSessionRequest sdk3 r3 w2
                = (settledReply sdk3 h, served sdk3 h w2)).
  { rewrite handleSessionRequest_paths, Hs3.
    rewrite (registered_Some (transports w2) sid h Hne); [reflexivity|].
    rewrite Hreg2. exact Hreg1. }
  assert (Hreg3 : transports w3 !! sid = None).
  { subst w3. simpl. rewrite Hw3. simpl.
    rewrite (served_closed_transports sdk3 h {| sessionId := Some sid |} sid w2 Hn3);
      [apply lookup_delete_eq | rewrite Hobj2; exact Hobj1 | reflexivity | exact Hne]. }
  split; [exact Hreg1|]. split; [rewrite Hw2; reflexivity|].
  split; [exact Htr2|]. split; [rewrite Hw3; reflexivity|].
  split; [exact Hreg3|].
  rewrite handleSessionRequest_paths, Hs4.
  rewrite (registered_unknown _ _ Hreg3 (uuidString_own u)). reflexivity.
Qed.

Lemma session_lifecycle_witness :
  let w1 := Index.step "obo"
              (Index.Post initializingSdk
                 {| Index.mcpSessionId := None;
                    Index.authorization := Some "Bearer U";
                    Index.body := Some initializeBody |}) initial in
  let w2 := Index.step "obo"
              (Index.Post failingSdk
                 {| Index.mcpSessionId := Some sampleId;
                    Index.authorization := Some "Bearer U";
                    Index.body := Some toolCallBody |}) w1 in
  let w3 := Index.step "obo"
              (Index.GetOrDelete closingSdk
                 {| Index.mcpSessionId := Some sampleId;
                    Index.authorization := None;
                    Index.body := None |}) w2 in
  transports w1 !! sampleId = Some 0
  /\ transports w3 !! sampleId = None
  /\ fst (Index.handleSessionRequest quietSdk
            {| Index.mcpSessionId := Some sampleId;
               Index.authorization := None;
               Index.body := None |} w3)
     = Return (Index.TextReply 400 "Invalid or missing session ID").
Proof.
  intros w1 w2 w3.
  pose proof (session_lifecycle "obo" initializingSdk failingSdk closingSdk quietSdk
                {| Index.mcpSessionId := None;
                   Index.authorization := Some "Bearer U";
                   Index.body := Some initializeBody |}
                {| Index.mcpSessionId := Some sampleId;
                   Index.authorization := Some "Bearer U";
                   Index.body := Some toolCallBody |}
                {| Index.mcpSessionId := Some sampleId;
                   Index.authorization := None;
                   Index.body := None |}
                {| Index.mcpSessionId := Some sampleId;
                   Index.authorization := None;
                   Index.body := None |}
                sampleUuid initial
                eq_refl eq_refl eq_refl eq_refl eq_refl eq_refl eq_refl eq_refl
                eq_refl eq_refl eq_refl) as (H1 & _ & _ & _ & H3 & H4).
  split; [exact H1|]. split; [exact H3|].
  exact (f_equal fst H4).
Defined.

(** *** The bearer value of a header *)

Lemma split_without_separator (sep : ascii) (s : string) :
  contains sep s = false -> Js.split sep s = [s].
Proof.
  induction s as [|c rest IH]; simpl; [reflexivity|].
  intros H. apply orb_false_iff in H as [Hc Hrest].
  rewrite Hc, (IH Hrest). reflexivity.
Qed.

Lemma split_at_separator (sep : ascii) (a b : string) :
  contains sep a = false ->
  Js.split sep (a ++ String sep b)%string = a :: Js.split sep b.
Proof.
  induction a as [|c rest IH]; simpl.
  - intros _. rewrite Ascii.eqb_refl. reflexivity.
  - intros H. apply orb_false_iff in H as [Hc Hrest].
    rewrite Hc, (IH Hrest). reflexivity.
Qed.

Lemma split_pieces (sep : ascii) (s : string) :
  Forall (fun piece => contains sep piece = false) (Js.split sep s).
Proof.
  induction s as [|c rest IH]; simpl.
  - repeat constructor.
  - destruct (Ascii.eqb c sep) eqn:Hc.
    + constructor; [reflexivity | exact IH].
    + destruct (Js.split sep rest) as [|piece pieces].
      * repeat constructor. simpl. rewrite Hc. reflexivity.
      * inversion IH as [|? ? Hp Hps]; subst.
        constructor; [|exact Hps]. simpl. rewrite Hc, Hp. reflexivity.
Qed.

(** X16. The bearer value read from an Authorization header: for a
    header made of a scheme, one space and a token, neither containing a
    space, it is the token, whatever the scheme is; for a header without
    a space there is none; and a value that is read never contains a
    space, so a token with a space in it is cut at that space. *)
Theorem bearer_value_of_header (scheme token header : string) :
  (contains " " scheme = false -> contains " " token = false ->
   Js.secondWord (Some (scheme ++ " " ++ token)%string) = Some token)
  /\ (contains " " header = false -> Js.secondWord (Some header) = None)
  /\ (forall value, Js.secondWord (Some header) = Some value ->
      contains " " value = false).
Proof.
  unfold Js.secondWord. split; [|split].
  - intros Hs Ht.
    change (scheme ++ " " ++ token)%string with (scheme ++ String " " token)%string.
    rewrite (split_at_separator _ _ _ Hs), (split_without_separator _ _ Ht).
    reflexivity.
  - intros Hh. rewrite (split_without_separator _ _ Hh). reflexivity.
  - intros value Hv. apply nth_error_In in Hv.
    pose proof (split_pieces " " header) as Hall.
    rewrite Forall_forall in Hall. apply Hall. apply list_elem_of_In. exact Hv.
Qed.

Lemma bearer_value_of_header_witness :
  Js.secondWord (Some "Bearer eyJ0eXAi.abc") = Some "eyJ0eXAi.abc"
  /\ Js.secondWord (Some "Basic dXNlcg==") = Some "dXNlcg=="
  /\ Js.secondWord (Some "Bearer") = None.
Proof.
  split; [|split].
  - apply (proj1 (bearer_value_of_header "Bearer" "eyJ0eXAi.abc" "")); reflexivity.
  - apply (proj1 (bearer_value_of_header "Basic" "dXNlcg==" "")); reflexivity.
  - apply (proj1 (proj2 (bearer_value_of_header "" "" "Bearer"))). reflexivity.
Defined.

(** *** Witnesses for the remarks above and the other versions *)

Lemma obo_early_exit_keeps_token_witness :
  externalToken
    (snd (Index.post "obo" quietSdk
            {| Index.mcpSessionId := Some "s9";
               Index.authorization := Some "Bearer U";
               Index.body := Some toolCallBody |} oneSession))
  = Some "U".
Proof.
  apply (obo_early_exit_keeps_token quietSdk
           {| Index.mcpSessionId := Some "s9";
              Index.authorization := Some "Bearer U";
              Index.body := Some toolCallBody |} oneSession);
    [reflexivity | reflexivity | left; reflexivity].
Defined.

Lemma draft2_post_agrees_witness :
  IndexDraft2.post initializingSdk
    {| Index.mcpSessionId := None;
       Index.authorization := None;
       Index.body := Some initializeBody |} oneSession
  = Index.post "azcli" initializingSdk
      {| Index.mcpSessionId := None;
         Index.authorization := None;
         Index.body := Some initializeBody |} oneSession.
Proof.
  apply (draft2_post_agrees "azcli" initializingSdk
           {| Index.mcpSessionId := None;
              Index.authorization := None;
              Index.body := Some initializeBody |} oneSession); discriminate.
Defined.

Lemma earlier_versions_chain_on_tenant_witness :
  AuthUpstream.createAuthenticator grantingIdp "env" (Some "contoso") initial
  = (Return (Auth.FromCredential
               (ChainedTokenCredential
                  [AzureCliCredential "contoso"; DefaultAzureCredential])), initial)
  /\ AuthDraft2.createAuthenticator grantingIdp "azcli" (Some "contoso") None initial
     = (Return (AuthDraft2.FromCredential
                  (ChainedTokenCredential
                     [AzureCliCredential "contoso"; DefaultAzureCredential])),
        logged [SetEnv "AZURE_TOKEN_CREDENTIALS" "dev"] initial)
  /\ AuthUpstream.createAuthenticator strictIdp "env" (Some "my tenant") initial
     = (Throw (LibraryError "Error"), initial).
Proof.
  pose proof (earlier_versions_chain_on_tenant grantingIdp "env" "contoso" None initial
                (or_intror eq_refl) ltac:(discriminate)) as (H1 & _).
  pose proof (earlier_versions_chain_on_tenant grantingIdp "azcli" "contoso" None initial
                (or_introl eq_refl) ltac:(discriminate)) as (_ & H2 & _).
  pose proof (earlier_versions_chain_on_tenant strictIdp "env" "my tenant" None initial
                (or_intror eq_refl) ltac:(discriminate)) as (_ & _ & H3 & _).
  split; [|split].
  - apply H1. split; reflexivity.
  - apply H2. split; reflexivity.
  - apply (proj1 (H3 "Error" eq_refl)). reflexivity.
Defined.

(** X20. The second draft of the on-behalf-of back end. Its factory
    throws exactly when a client id, a client secret or the user
    assertion is missing or empty in the options; the authenticator it
    builds exchanges, at every call and whatever the call passes, the
    assertion it was built with, once, and returns the access token of
    the answer. *)
Theorem draft2_obo_exchange
    (idp : Auth.IdentityProvider) (tenantId : option string)
    (options : option AuthDraft2.Options) (w : World) :
  ((exists e, fst (AuthDraft2.createAuthenticator idp "obo" tenantId options w) = Throw e)
   <-> match options with
       | Some o => Js.truthy (AuthDraft2.clientId o) = false
                   \/ Js.truthy (AuthDraft2.clientSecret o) = false
                   \/ Js.truthy (AuthDraft2.userAssertion o) = false
       | None => True
       end)
  /\ (forall oboAuth bound userAssertion w1,
      AuthDraft2.call idp (AuthDraft2.FromObo oboAuth bound) userAssertion w1
      = (match Auth.acquireTokenOnBehalfOf idp (Auth.cca oboAuth) bound with
         | Resolved (Some r) =>
             if String.eqb (accessToken r) ""
             then Throw (Error "Failed to obtain Azure DevOps token via OBO.")
             else Return (accessToken r)
         | Resolved None => Throw (Error "Failed to obtain Azure DevOps token via OBO.")
         | Rejected name => Throw (LibraryError name)
         end,
         logged [AcquireTokenOnBehalfOf bound] w1)).
Proof.
  split.
  - unfold AuthDraft2.createAuthenticator. simpl.
    destruct options as [[[id|] [secret|] [ua|]]|]; simpl;
      try destruct (String.eqb id ""); try destruct (String.eqb secret "");
      try destruct (String.eqb ua ""); simpl;
      (split;
       [intros [e He]; unfold ret, throw in He; simpl in He;
        first [discriminate | exact I | auto]
       |intros Hm; first [eexists; reflexivity
                         |destruct Hm as [Hm | [Hm | Hm]]; discriminate]]).
  - intros oboAuth bound userAssertion w1. simpl.
    unfold AuthDraft2.getToken, logged. run_m.
    destruct (Auth.acquireTokenOnBehalfOf idp (Auth.cca oboAuth) bound) as [[r|]|name];
      simpl; try reflexivity.
    destruct (String.eqb (accessToken r) ""); reflexivity.
Qed.

(** The cases a version of the factory lacks fall to the interactive
    login: in [part_000] the type "obo", and in the second
    draft of [auth.ts] the type "external", build an interactive
    authenticator instead of failing. *)
Theorem missing_cases_select_interactive
    (idp : Auth.IdentityProvider) (tenantId : option string)
    (options : option AuthDraft2.Options) (w : World) :
  (exists oauth,
     AuthUpstream.createAuthenticator idp "obo" tenantId w
     = (Return (Auth.FromOAuth oauth), signedIn None w))
  /\ (exists oauth,
     AuthDraft2.createAuthenticator idp "external" tenantId options w
     = (Return (AuthDraft2.FromOAuth oauth), signedIn None w)).
Proof. split; eexists; reflexivity. Qed.
